(** * Work item attachment tools of mcp_azure_devops

    A shallow embedding of
    [src/mcp_azure_devops/features/work_items/tools/attachments.py]
    and the properties of its download, upload and attach handlers.

    Conventions of the embedding.
    - A Python [str] is a [string]; one character is one [ascii].
    - A Python [bytes] object is a [list byte].
    - A Python [int] is a [Z]; [str(n)] is stdpp's decimal [pretty].
    - The fields the SDK declares as [str] ([rel], [url], [id]) are
      strings; the values of an attribute dictionary are arbitrary
      objects ([pyobj]).
    - A computation that may raise is a function from the state of the
      outside world to a result ([inl] of the exception, [inr] of the
      value) and the state it leaves behind.  The state persists when an
      exception is raised, as it does in Python.
    - The Azure DevOps client ([wit_client]) is a record holding the
      answer of each SDK method; every call made is appended to a trace.
    - The file system is keyed by the path string the module passes to
      [os.path.exists] and [open]; symbolic links are not modelled.
    - The [logging] calls write to a log file only and are left out. *)

From Stdlib Require Import ZArith Lia Ascii String List Bool.
From stdpp Require Import base option list gmap strings pretty.

Local Open Scope string_scope.
Local Open Scope list_scope.
Local Open Scope Z_scope.

(** ** Python values *)

(** The exceptions the module distinguishes: [AzureDevOpsClientError],
    and every other subclass of [Exception].  [AzureDevOpsClientError]
    is declared in [work_items/common.py], outside the sources at hand; it
    is taken to be a plain subclass of [Exception] built from its
    message, so that [str(e)] is that message. *)
Inductive exn : Type :=
| AzureDevOpsClientError (msg : string)
| OtherException (msg : string).

(** [str(e)] *)
Definition str_exn (e : exn) : string :=
  match e with
  | AzureDevOpsClientError msg => msg
  | OtherException msg => msg
  end.

(** The values a JSON attribute dictionary of the SDK may carry. *)
Inductive pyobj : Type :=
| PyStr (s : string)
| PyInt (z : Z)
| PyBool (b : bool)
| PyNone.

(** [str(o)], as an f-string formats a value *)
Definition str_obj (o : pyobj) : string :=
  match o with
  | PyStr s => s
  | PyInt z => pretty z
  | PyBool true => "True"
  | PyBool false => "False"
  | PyNone => "None"
  end.

Abbreviation bytes := (list Byte.byte).

(** ** String operations of Python *)

Module Str.

(** [needle in hay] *)
Fixpoint contains (needle hay : string) : bool :=
  String.prefix needle hay ||
  match hay with
  | EmptyString => false
  | String _ rest => contains needle rest
  end.

(** [s.startswith(p)] *)
Definition startswith (s p : string) : bool := String.prefix p s.

(** [s.startswith((p1, p2, ...))] *)
Definition startswith_any (s : string) (ps : list string) : bool :=
  existsb (startswith s) ps.

(** [s.endswith(p)] *)
Definition endswith (s p : string) : bool :=
  let n := String.length s in
  let k := String.length p in
  (k <=? n)%nat && String.eqb (String.substring (n - k) k s) p.

(** [s.split(sep)] for a one-character separator: never empty. *)
Fixpoint split (sep : ascii) (s : string) : list string :=
  match s with
  | EmptyString => [EmptyString]
  | String a rest =>
      if Ascii.eqb a sep then EmptyString :: split sep rest
      else match split sep rest with
           | h :: t => String a h :: t
           | [] => [String a EmptyString]
           end
  end.

(** [s.replace(a, b)] for one-character [a] and [b] *)
Fixpoint replace (a b : ascii) (s : string) : string :=
  match s with
  | EmptyString => EmptyString
  | String c rest =>
      String (if Ascii.eqb c a then b else c) (replace a b rest)
  end.

(** [l[0]] and [l[-1]] on the result of a split *)
Definition first (l : list string) : string := hd EmptyString l.
Definition last (l : list string) : string := List.last l EmptyString.

(** [sep.join(l)] *)
Fixpoint join (sep : string) (l : list string) : string :=
  match l with
  | [] => EmptyString
  | [x] => x
  | x :: rest => x +:+ sep +:+ join sep rest
  end.

(** [s.rstrip(c)] for a one-character [c] *)
Fixpoint rstrip (c : ascii) (s : string) : string :=
  match s with
  | EmptyString => EmptyString
  | String a rest =>
      match rstrip c rest with
      | EmptyString => if Ascii.eqb a c then EmptyString else String a EmptyString
      | r => String a r
      end
  end.

(** every character of [s] is [c] *)
Fixpoint all_char (c : ascii) (s : string) : bool :=
  match s with
  | EmptyString => true
  | String a rest => Ascii.eqb a c && all_char c rest
  end.

(** truth value of a string: [bool(s)] *)
Definition truthy (s : string) : bool := negb (String.eqb s EmptyString).

End Str.

Definition backslash : ascii := Ascii.ascii_of_nat 92.
Definition slash : ascii := "/"%char.
Definition colon : ascii := ":"%char.
Definition newline : string := String (Ascii.ascii_of_nat 10) EmptyString.

(** ** [os.path] on POSIX *)

(** [os.path.basename(p)]: what follows the last slash. *)
Definition os_path_basename (p : string) : string :=
  Str.last (Str.split slash p).

(** [os.path.join(a, b)] *)
Definition os_path_join (a b : string) : string :=
  if Str.startswith b "/" then b
  else if negb (Str.truthy a) || Str.endswith a "/" then a +:+ b
  else a +:+ "/" +:+ b.

(** [os.path.dirname(p)]: what precedes the last slash, without trailing
    slashes unless it consists of slashes only. *)
Definition os_path_dirname (p : string) : string :=
  let head :=
    String.concat "" (map (fun c => c +:+ "/") (removelast (Str.split slash p))) in
  if Str.truthy head && negb (Str.all_char slash head)
  then Str.rstrip slash head else head.

(** One step of the component loop of [os.path.normpath]. *)
Definition normpath_step (initial_slashes : nat)
    (new_comps : list string) (comp : string) : list string :=
  if String.eqb comp "" || String.eqb comp "." then new_comps
  else if negb (String.eqb comp "..")
          || (Nat.eqb initial_slashes 0 && Nat.eqb (length new_comps) 0)
          || (negb (Nat.eqb (length new_comps) 0)
              && String.eqb (Str.last new_comps) "..")
  then new_comps ++ [comp]
  else removelast new_comps.

(** [os.path.normpath(path)] *)
Definition os_path_normpath (path : string) : string :=
  if negb (Str.truthy path) then "."
  else
    let initial_slashes :=
      if Str.startswith path "/" then
        if Str.startswith path "//" && negb (Str.startswith path "///")
        then 2%nat else 1%nat
      else 0%nat in
    let comps := fold_left (normpath_step initial_slashes) (Str.split slash path) [] in
    let joined :=
      String.concat "" (repeat "/" initial_slashes) +:+ Str.join "/" comps in
    if Str.truthy joined then joined else ".".

(** [os.path.abspath(path)], given [os.getcwd()] *)
Definition os_path_abspath (cwd path : string) : string :=
  os_path_normpath (if Str.startswith path "/" then path else os_path_join cwd path).

(** ** The Azure DevOps SDK as seen by the module *)

(** [WorkItemRelation]: a link of a work item. *)
Record WorkItemRelation : Type := {
  rel : string;
  url : string;
  attributes : gmap string pyobj
}.

(** [WorkItem], with the fields the module reads. *)
Record WorkItem : Type := {
  wi_id : Z;
  rev : Z;
  relations : option (list WorkItemRelation)
}.

(** [AttachmentReference], the answer of [create_attachment]. *)
Record AttachmentReference : Type := {
  att_id : string;
  att_url : string
}.

(** One operation of a JSON patch document. *)
Record JsonPatchOperation : Type := {
  op : string;
  path : string;
  value : WorkItemRelation
}.

(** The [upload_stream] handed to [create_attachment]: the file object
    opened on a path, or an in-memory buffer. *)
Inductive UploadStream : Type :=
| FileObject (name : string) (content : bytes)
| BytesIO (content : bytes).

(** What iterating the generator of [get_attachment_content] yields: the
    chunks, and the exception that ends the iteration early, if any. *)
Definition ContentGenerator : Type := (list bytes * option exn)%type.

(** [WorkItemTrackingClient]: the answer of each method to each call. *)
Record WorkItemTrackingClient : Type := {
  get_work_item : Z -> option string -> exn + option WorkItem;
  get_attachment_content : string -> exn + ContentGenerator;
  create_attachment : UploadStream -> string -> string -> exn + AttachmentReference;
  update_work_item : list JsonPatchOperation -> Z -> bool -> exn + option WorkItem
}.

(** The calls made to the SDK, in order. *)
Inductive SdkCall : Type :=
| CallGetWorkItem (id : Z) (expand : option string)
| CallGetAttachmentContent (id : string)
| CallCreateAttachment (upload_stream : UploadStream) (file_name upload_type : string)
| CallUpdateWorkItem (document : list JsonPatchOperation) (id : Z) (bypass_rules : bool).

(** ** The file system *)

Record FileSystem : Type := {
  fs_files : gmap string bytes;   (* regular files and their content *)
  fs_dirs : gset string;          (* directories *)
  fs_denied : gset string;        (* paths the process may not open or create *)
  fs_cwd : string                 (* os.getcwd() *)
}.

(** The state of the outside world a tool call reads and changes. *)
Record World : Type := {
  fs : FileSystem;
  sdk_trace : list SdkCall
}.

(** What the hosting process provides besides the file system:
    [get_work_item_client] of [work_items/common.py], which returns the
    client or raises, and the table behind [mimetypes.guess_type]. *)
Record Environment : Type := {
  get_work_item_client : exn + WorkItemTrackingClient;
  guess_type : string -> option string   (* first component of mimetypes.guess_type *)
}.

(** ** Computations that read and change the world and may raise *)

Definition M (A : Type) : Type := World -> (exn + A) * World.

Definition ret {A} (a : A) : M A := fun w => (inr a, w).

Definition raise {A} (e : exn) : M A := fun w => (inl e, w).

Definition bind {A B} (m : M A) (k : A -> M B) : M B :=
  fun w =>
    match m w with
    | (inr a, w') => k a w'
    | (inl e, w') => (inl e, w')
    end.

(** [try: m except Exception as e: handler(e)] *)
Definition try_except {A} (m : M A) (handler : exn -> M A) : M A :=
  fun w =>
    match m w with
    | (inr a, w') => (inr a, w')
    | (inl e, w') => handler e w'
    end.

(** a call whose answer does not depend on the world *)
Definition lift {A} (r : exn + A) : M A := fun w => (r, w).

Notation "'let*' x ':=' m 'in' k" := (bind m (fun x => k))
  (at level 10, x binder, m at level 100, k at level 200).
Notation "'run' m 'then' k" := (bind m (fun _ => k))
  (at level 10, m at level 100, k at level 200).

Definition record_call (c : SdkCall) : M unit :=
  fun w => (inr tt, {| fs := fs w; sdk_trace := sdk_trace w ++ [c] |}).

(** *** SDK calls *)

Definition call_get_work_item (c : WorkItemTrackingClient)
    (id : Z) (expand : option string) : M (option WorkItem) :=
  run record_call (CallGetWorkItem id expand) then
  lift (get_work_item c id expand).

Definition call_get_attachment_content (c : WorkItemTrackingClient)
    (id : string) : M ContentGenerator :=
  run record_call (CallGetAttachmentContent id) then
  lift (get_attachment_content c id).

Definition call_create_attachment (c : WorkItemTrackingClient)
    (upload_stream : UploadStream) (file_name upload_type : string)
    : M AttachmentReference :=
  run record_call (CallCreateAttachment upload_stream file_name upload_type) then
  lift (create_attachment c upload_stream file_name upload_type).

Definition call_update_work_item (c : WorkItemTrackingClient)
    (document : list JsonPatchOperation) (id : Z) (bypass_rules : bool)
    : M (option WorkItem) :=
  run record_call (CallUpdateWorkItem document id bypass_rules) then
  lift (update_work_item c document id bypass_rules).

(** *** File system calls *)

Module Fs.

Definition os_error (errno what name : string) : exn :=
  OtherException ("[Errno " +:+ errno +:+ "] " +:+ what +:+ ": '" +:+ name +:+ "'").

Definition is_file (f : FileSystem) (p : string) : bool :=
  bool_decide (is_Some (fs_files f !! p)).

Definition is_dir (f : FileSystem) (p : string) : bool :=
  bool_decide (p ∈ fs_dirs f).

Definition is_denied (f : FileSystem) (p : string) : bool :=
  bool_decide (p ∈ fs_denied f).

(** [os.path.exists(p)]: the empty path never exists. *)
Definition path_exists (f : FileSystem) (p : string) : bool :=
  Str.truthy p && (is_file f p || is_dir f p).

(** a path whose last component is empty, [.] or [..] names a directory *)
Definition names_directory (p : string) : bool :=
  let b := os_path_basename p in
  String.eqb b "" || String.eqb b "." || String.eqb b "..".

(** [os.makedirs(name, exist_ok=True)] *)
Definition makedirs (name : string) (f : FileSystem) : exn + FileSystem :=
  if is_dir f name then inr f
  else if is_file f name then inl (os_error "17" "File exists" name)
  else if is_denied f name then inl (os_error "13" "Permission denied" name)
  else inr {| fs_files := fs_files f; fs_dirs := {[name]} ∪ fs_dirs f;
              fs_denied := fs_denied f; fs_cwd := fs_cwd f |}.

(** [open(name, 'wb')]: creates the file or truncates it. *)
Definition open_wb (name : string) (f : FileSystem) : exn + FileSystem :=
  if is_dir f name || names_directory name
  then inl (os_error "21" "Is a directory" name)
  else if is_denied f name then inl (os_error "13" "Permission denied" name)
  else inr {| fs_files := <[name := []]> (fs_files f); fs_dirs := fs_dirs f;
              fs_denied := fs_denied f; fs_cwd := fs_cwd f |}.

(** [f.write(chunk)] on the file opened at [name] *)
Definition write (name : string) (chunk : bytes) (f : FileSystem) : exn + FileSystem :=
  inr {| fs_files := alter (fun old => old ++ chunk) name (fs_files f);
         fs_dirs := fs_dirs f; fs_denied := fs_denied f; fs_cwd := fs_cwd f |}.

(** [open(name, 'rb')]: the content the file object gives access to. *)
Definition open_rb (name : string) (f : FileSystem) : exn + bytes :=
  if is_denied f name then inl (os_error "13" "Permission denied" name)
  else match fs_files f !! name with
       | Some content => inr content
       | None =>
           if is_dir f name then inl (os_error "21" "Is a directory" name)
           else inl (os_error "2" "No such file or directory" name)
       end.

(** [os.path.getsize(name)]; the size of a directory entry is taken to be
    one block. *)
Definition getsize (name : string) (f : FileSystem) : exn + Z :=
  match fs_files f !! name with
  | Some content => inr (Z.of_nat (length content))
  | None =>
      if is_dir f name then inr 4096
      else inl (os_error "2" "No such file or directory" name)
  end.

End Fs.

(** a call that reads the file system *)
Definition read_fs {A} (call : FileSystem -> exn + A) : M A :=
  fun w => (call (fs w), w).

(** a call that changes the file system, unless it raises *)
Definition update_fs (call : FileSystem -> exn + FileSystem) : M unit :=
  fun w =>
    match call (fs w) with
    | inr f' => (inr tt, {| fs := f'; sdk_trace := sdk_trace w |})
    | inl e => (inl e, w)
    end.

Definition os_path_exists (p : string) : M bool :=
  read_fs (fun f => inr (Fs.path_exists f p)).

Definition os_getcwd : M string := read_fs (fun f => inr (fs_cwd f)).

Definition os_makedirs (name : string) : M unit := update_fs (Fs.makedirs name).

Definition open_wb (name : string) : M unit := update_fs (Fs.open_wb name).

Definition f_write (name : string) (chunk : bytes) : M unit :=
  update_fs (Fs.write name chunk).

Definition open_rb (name : string) : M bytes := read_fs (Fs.open_rb name).

Definition os_path_getsize (name : string) : M Z := read_fs (Fs.getsize name).

(** ** The module: [attachments.py] *)

(** The dictionary returned by [_get_attachment_info_from_work_item]. *)
Record AttachmentInfo : Type := {
  info_name : string;
  info_url : string;
  info_attributes : gmap string pyobj
}.

(** The dictionary returned by [_download_attachment_impl]. *)
Record DownloadResult : Type := {
  dl_filename : string;
  dl_size : Z;
  dl_content_type : pyobj;
  dl_saved_to : string
}.

(** The dictionary returned by [_upload_attachment_impl]. *)
Record UploadResult : Type := {
  up_id : string;
  up_url : string;
  up_name : string;
  up_size : Z;
  up_content_type : string;
  up_original_path : string;
  up_container_path : string;
  up_comment : option string
}.

(** The dictionary returned by [_attach_file_to_work_item_impl]. *)
Record AttachResult : Type := {
  ar_work_item_id : Z;
  ar_attachment_id : string;
  ar_attachment_name : string;
  ar_comment : string;
  updated_work_item_rev : Z
}.

(** [os.path.basename] applied to a value taken from a dictionary: a
    [TypeError] unless the value is a string. *)
Definition basename_of (o : pyobj) : exn + string :=
  match o with
  | PyStr s => inr (os_path_basename s)
  | _ => inl (OtherException "expected str, bytes or os.PathLike object")
  end.

(** [not work_item or not work_item.relations] *)
Definition lacks_relations (work_item : option WorkItem) : bool :=
  match work_item with
  | None => true
  | Some wi =>
      match relations wi with
      | None | Some [] => true
      | Some (_ :: _) => false
      end
  end.

(** [work_item.relations], once [lacks_relations] is excluded *)
Definition relations_of (work_item : option WorkItem) : list WorkItemRelation :=
  match work_item with
  | Some wi => default [] (relations wi)
  | None => []
  end.

(** the test of the relation loop (lines 54-55) *)
Definition is_attachment (attachment_id : string) (relation : WorkItemRelation) : bool :=
  String.eqb (rel relation) "AttachedFile"
  && Str.contains attachment_id (url relation).

(** the body of the relation loop once the test holds (lines 57-62) *)
Definition attachment_info_of (relation : WorkItemRelation) : exn + AttachmentInfo :=
  match basename_of (default (PyStr "") (attributes relation !! "name")) with
  | inl e => inl e
  | inr filename =>
      inr {| info_name := filename;
             info_url := url relation;
             info_attributes := attributes relation |}
  end.

(** the relation loop (lines 53-62): [None] when it runs to its end *)
Fixpoint scan_relations (attachment_id : string)
    (rels : list WorkItemRelation) : exn + option AttachmentInfo :=
  match rels with
  | [] => inr None
  | relation :: rest =>
      if is_attachment attachment_id relation then
        match attachment_info_of relation with
        | inl e => inl e
        | inr info => inr (Some info)
        end
      else scan_relations attachment_id rest
  end.

Definition _get_attachment_info_from_work_item
    (work_item_id : Z) (attachment_id : string)
    (wit_client : WorkItemTrackingClient) : M AttachmentInfo :=
  try_except
    (let* work_item :=
       call_get_work_item wit_client work_item_id (Some "relations") in
     if lacks_relations work_item then
       raise (AzureDevOpsClientError
                ("No attachments found in work item " +:+ pretty work_item_id))
     else
       let* found := lift (scan_relations attachment_id (relations_of work_item)) in
       match found with
       | Some info => ret info
       | None =>
           raise (AzureDevOpsClientError
                    ("Attachment " +:+ attachment_id
                     +:+ " not found in work item " +:+ pretty work_item_id))
       end)
    (fun e =>
       raise (AzureDevOpsClientError
                ("Error getting attachment information: " +:+ str_exn e))).

(** The test for a Windows path (lines 100 and 155). *)
Definition is_windows_path (p : string) : bool :=
  Str.contains (String backslash "") p
  || (Str.contains ":" p
      && Nat.eqb (String.length (Str.first (Str.split colon p))) 1).

(** [p.replace(backslash, "/").split("/")[-1]] (lines 102 and 157) *)
Definition windows_filename (p : string) : string :=
  Str.last (Str.split slash (Str.replace backslash slash p)).

(** The file name a download is saved under (lines 100-105). *)
Definition download_filename (output_path : string) : string :=
  if is_windows_path output_path then windows_filename output_path
  else os_path_basename output_path.

(** [final_path] of a download (lines 98-107) *)
Definition download_final_path (output_path : string) : string :=
  let downloads_dir := "/downloads" in
  os_path_join downloads_dir (download_filename output_path).

(** the loop over the generator (lines 116-118) *)
Fixpoint write_chunks (name : string) (chunks : list bytes) (total_size : Z) : M Z :=
  match chunks with
  | [] => ret total_size
  | chunk :: rest =>
      run f_write name chunk then
      write_chunks name rest (total_size + Z.of_nat (length chunk))
  end.

(** lines 113-118: open the file, write what the generator yields, and
    raise what ends the generator early *)
Definition save_content (final_path : string) (gen : ContentGenerator) : M Z :=
  let total_size := 0 in
  run open_wb final_path then
  let* total_size := write_chunks final_path (fst gen) total_size in
  match snd gen with
  | Some e => raise e
  | None => ret total_size
  end.

Definition _download_attachment_impl
    (work_item_id : Z) (attachment_id : string) (output_path : string)
    (wit_client : WorkItemTrackingClient) : M DownloadResult :=
  try_except
    (let* attachment_info :=
       _get_attachment_info_from_work_item work_item_id attachment_id wit_client in
     let* attachment_content_generator :=
       call_get_attachment_content wit_client attachment_id in
     let final_path := download_final_path output_path in
     let* cwd := os_getcwd in
     run os_makedirs (os_path_dirname (os_path_abspath cwd final_path)) then
     let* total_size := save_content final_path attachment_content_generator in
     ret {| dl_filename := info_name attachment_info;
            dl_size := total_size;
            dl_content_type :=
              default (PyStr "application/octet-stream")
                      (info_attributes attachment_info !! "contentType");
            dl_saved_to := final_path |})
    (fun e =>
       raise (AzureDevOpsClientError
                ("Error downloading attachment " +:+ attachment_id
                 +:+ " from work item " +:+ pretty work_item_id
                 +:+ ": " +:+ str_exn e))).

(** *** Upload: locating the file in the container (lines 151-225) *)

(** the three container directories joined with a name *)
Definition common_locations (name : string) : list string :=
  [os_path_join "/downloads" name;
   os_path_join "/uploads" name;
   os_path_join "/tmp" name].

(** the probing loop: [container_path] stays [None] unless a location
    exists, and the first such location wins *)
Fixpoint probe (possible_locations : list string) : M (option string) :=
  match possible_locations with
  | [] => ret None
  | loc :: rest =>
      let* found := os_path_exists loc in
      if found then ret (Some loc) else probe rest
  end.

Definition not_found_message (file_path : string) : string :=
  "File not found: " +:+ file_path
  +:+ ". Please ensure the file is available "
  +:+ "in the container in one of these directories: /downloads, /uploads, or /tmp.".

(** [if not container_path: raise ...] *)
Definition require_found (file_path : string) (container_path : option string) : M string :=
  match container_path with
  | Some loc =>
      if Str.truthy loc then ret loc
      else raise (AzureDevOpsClientError (not_found_message file_path))
  | None => raise (AzureDevOpsClientError (not_found_message file_path))
  end.

Definition locate_container_path (file_path : string) : M string :=
  if is_windows_path file_path then
    let filename := windows_filename file_path in
    let* container_path := probe (common_locations filename) in
    require_found file_path container_path
  else if Str.startswith file_path "/" then
    let* found := os_path_exists file_path in
    if negb found then
      if negb (Str.startswith_any file_path ["/downloads/"; "/uploads/"; "/tmp/"]) then
        let filename := os_path_basename file_path in
        let* container_path := probe (common_locations filename) in
        require_found file_path container_path
      else raise (AzureDevOpsClientError ("File not found: " +:+ file_path))
    else ret file_path
  else
    let* container_path := probe (common_locations file_path ++ [file_path]) in
    require_found file_path container_path.

(** [file_name] once defaulted (lines 228-229) *)
Definition effective_file_name (file_path : string) (file_name : option string) : string :=
  match file_name with
  | Some n => if Str.truthy n then n else os_path_basename file_path
  | None => os_path_basename file_path
  end.

(** [content_type] (lines 232-234) *)
Definition content_type_of (env : Environment) (file_name : string) : string :=
  match guess_type env file_name with
  | Some t => if Str.truthy t then t else "application/octet-stream"
  | None => "application/octet-stream"
  end.

(** lines 239-266: upload from the file object, and on any failure once
    more from an in-memory copy *)
Definition upload_stream_of (wit_client : WorkItemTrackingClient)
    (container_path file_name : string) : M AttachmentReference :=
  try_except
    (let* content := open_rb container_path in
     call_create_attachment wit_client
       (FileObject container_path content) file_name "simple")
    (fun file_error =>
       let* file_content := open_rb container_path in
       let memory_file := BytesIO file_content in
       call_create_attachment wit_client memory_file file_name "simple").

Definition _upload_attachment_impl (env : Environment)
    (file_path : string) (file_name : option string) (comment : option string)
    (wit_client : WorkItemTrackingClient) : M UploadResult :=
  try_except
    (let* container_path := locate_container_path file_path in
     let file_name := effective_file_name file_path file_name in
     let content_type := content_type_of env file_name in
     let* attachment := upload_stream_of wit_client container_path file_name in
     let* size := os_path_getsize container_path in
     ret {| up_id := att_id attachment;
            up_url := att_url attachment;
            up_name := file_name;
            up_size := size;
            up_content_type := content_type;
            up_original_path := file_path;
            up_container_path := container_path;
            up_comment := comment |})
    (fun e =>
       raise (AzureDevOpsClientError
                ("Error uploading attachment " +:+ file_path
                 +:+ ": " +:+ str_exn e))).

(** [comment if comment else ""] *)
Definition comment_or_empty (comment : option string) : string :=
  match comment with
  | Some c => if Str.truthy c then c else ""
  | None => ""
  end.

(** the JSON patch document of lines 310-323 *)
Definition patch_document_for (attachment_id attachment_name : string)
    (comment : option string) : list JsonPatchOperation :=
  [ {| op := "add";
       path := "/relations/-";
       value :=
         {| rel := "AttachedFile";
            url := attachment_id;
            attributes :=
              <["name" := PyStr attachment_name]>
                (<["comment" := PyStr (comment_or_empty comment)]> ∅) |} |} ].

Definition _attach_file_to_work_item_impl
    (work_item_id : Z) (attachment_id attachment_name : string)
    (comment : option string) (wit_client : WorkItemTrackingClient) : M AttachResult :=
  try_except
    (let* work_item := call_get_work_item wit_client work_item_id None in
     match work_item with
     | None =>
         raise (AzureDevOpsClientError
                  ("Work item " +:+ pretty work_item_id +:+ " not found"))
     | Some _ =>
         let patch_document :=
           patch_document_for attachment_id attachment_name comment in
         let* updated_work_item :=
           call_update_work_item wit_client patch_document work_item_id false in
         match updated_work_item with
         | None =>
             raise (OtherException "'NoneType' object has no attribute 'rev'")
         | Some updated =>
             ret {| ar_work_item_id := work_item_id;
                    ar_attachment_id := attachment_id;
                    ar_attachment_name := attachment_name;
                    ar_comment := comment_or_empty comment;
                    updated_work_item_rev := rev updated |}
         end
     end)
    (fun e =>
       raise (AzureDevOpsClientError
                ("Error attaching file to work item " +:+ pretty work_item_id
                 +:+ ": " +:+ str_exn e))).

(** *** The tools registered by [register_tools] *)

(** the [try] block of [download_work_item_attachment] (lines 378-394) *)
Definition download_tool_body (env : Environment)
    (work_item_id : Z) (attachment_id output_path : string) : M string :=
  let* wit_client := lift (get_work_item_client env) in
  let* result :=
    _download_attachment_impl work_item_id attachment_id output_path wit_client in
  let response :=
    [ "# Attachment Downloaded Successfully";
      "Filename: " +:+ dl_filename result;
      "Size: " +:+ pretty (dl_size result) +:+ " bytes";
      "Content Type: " +:+ str_obj (dl_content_type result);
      "Saved to: " +:+ dl_saved_to result;
      "";
      "The file is now available for viewing or processing." ] in
  ret (Str.join newline response).

(** the tool: the [try] block under its two [except] clauses *)
Definition download_work_item_attachment (env : Environment)
    (work_item_id : Z) (attachment_id output_path : string)
    : World -> string * World :=
  fun w =>
    match download_tool_body env work_item_id attachment_id output_path w with
    | (inr text, w') => (text, w')
    | (inl (AzureDevOpsClientError msg), w') => ("Error: " +:+ msg, w')
    | (inl (OtherException msg), w') =>
        ("Error downloading attachment: " +:+ msg, w')
    end.

(** the [try] block of [upload_attachment_to_work_item] (lines 435-478) *)
Definition upload_tool_body (env : Environment)
    (work_item_id : Z) (file_path : string)
    (file_name : option string) (comment : option string) : M string :=
  let* wit_client := lift (get_work_item_client env) in
  let* upload_result :=
    _upload_attachment_impl env file_path file_name comment wit_client in
  let* attach_result :=
    _attach_file_to_work_item_impl work_item_id
      (up_url upload_result) (up_name upload_result) comment wit_client in
  let response :=
    [ "# File Attached Successfully to Work Item " +:+ pretty work_item_id;
      "Filename: " +:+ up_name upload_result;
      "Size: " +:+ pretty (up_size upload_result) +:+ " bytes";
      "Content Type: " +:+ up_content_type upload_result ]
    ++ [ "File location in container: " +:+ up_container_path upload_result ]
    ++ (if Str.truthy (comment_or_empty comment)
        then [ "Comment: " +:+ comment_or_empty comment ] else [])
    ++ [ ""; "The file has been uploaded and attached to the work item." ] in
  ret (Str.join newline response).

(** the tool: the [try] block under its two [except] clauses *)
Definition upload_attachment_to_work_item (env : Environment)
    (work_item_id : Z) (file_path : string)
    (file_name : option string) (comment : option string)
    : World -> string * World :=
  fun w =>
    match upload_tool_body env work_item_id file_path file_name comment w with
    | (inr text, w') => (text, w')
    | (inl (AzureDevOpsClientError msg), w') => ("Error: " +:+ msg, w')
    | (inl (OtherException msg), w') =>
        ("Error uploading attachment: " +:+ msg, w')
    end.

(** ** Abbreviations used in the statements *)

(** the world after one more SDK call *)
Definition after_call (c : SdkCall) (w : World) : World :=
  {| fs := fs w; sdk_trace := sdk_trace w ++ [c] |}.

(** the world with another file system *)
Definition with_fs (f : FileSystem) (w : World) : World :=
  {| fs := f; sdk_trace := sdk_trace w |}.

(** the wrapper of every message raised inside the attachment lookup *)
Definition info_error (msg : string) : exn :=
  AzureDevOpsClientError ("Error getting attachment information: " +:+ msg).

(** the wrapper of every message raised inside the upload *)
Definition upload_error (file_path msg : string) : exn :=
  AzureDevOpsClientError
    ("Error uploading attachment " +:+ file_path +:+ ": " +:+ msg).

(** the [name] attribute of a relation is absent or a string, as the
    service sends it *)
Definition name_is_str (relation : WorkItemRelation) : bool :=
  match attributes relation !! "name" with
  | Some (PyStr _) | None => true
  | Some _ => false
  end.

(** an absolute POSIX path that already lies under one of the container
    directories (the tests of lines 155, 177 and 181) *)
Definition under_container_prefix (file_path : string) : bool :=
  negb (is_windows_path file_path)
  && Str.startswith file_path "/"
  && Str.startswith_any file_path ["/downloads/"; "/uploads/"; "/tmp/"].

(** the locations the locator tests for existence, in the order it tests
    them, for each form of path (lines 155-219) *)
Definition searched_locations (file_path : string) : list string :=
  if is_windows_path file_path then
    common_locations (windows_filename file_path)
  else if Str.startswith file_path "/" then
    if Str.startswith_any file_path ["/downloads/"; "/uploads/"; "/tmp/"]
    then [file_path]
    else file_path :: common_locations (os_path_basename file_path)
  else common_locations file_path ++ [file_path].

(** the message of the locator's failure (lines 173-176, 197-200, 203,
    222-225) *)
Definition locate_failure_message (file_path : string) : string :=
  if under_container_prefix file_path then "File not found: " +:+ file_path
  else not_found_message file_path.

(** the calls an upload may have made: one from the file object, and
    after its failure one from the in-memory copy *)
Definition upload_calls_of (file_name : string) (calls : list SdkCall) : Prop :=
  calls <> [] /\
  Forall (fun c => exists stream, c = CallCreateAttachment stream file_name "simple")
         calls.

(** ** Concrete worlds *)

Module Examples.

Definition pdf_chunks : list bytes :=
  [[Byte.x25; Byte.x50]; []; [Byte.x44; Byte.x46; Byte.x0a]].

Definition relation_link : WorkItemRelation :=
  {| rel := "System.LinkTypes.Related";
     url := "https://dev.azure.com/org/_apis/wit/workItems/abc-123";
     attributes := <["isLocked" := PyBool false]> ∅ |}.

Definition relation_report : WorkItemRelation :=
  {| rel := "AttachedFile";
     url := "https://dev.azure.com/org/_apis/wit/attachments/abc-123";
     attributes :=
       <["name" := PyStr "report.pdf"]> (<["resourceSize" := PyInt 5]> ∅) |}.

Definition relation_copy : WorkItemRelation :=
  {| rel := "AttachedFile";
     url := "https://dev.azure.com/org/_apis/wit/attachments/abc-123-copy";
     attributes := <["name" := PyStr "copy.pdf"]> ∅ |}.

Definition work_item_7 : WorkItem :=
  {| wi_id := 7; rev := 3;
     relations := Some [relation_link; relation_report; relation_copy] |}.

Definition work_item_8 : WorkItem :=
  {| wi_id := 8; rev := 1; relations := None |}.

Definition uploaded : AttachmentReference :=
  {| att_id := "f00d";
     att_url := "https://dev.azure.com/org/_apis/wit/attachments/f00d" |}.

Definition client : WorkItemTrackingClient :=
  {| get_work_item := fun id _ =>
       if id =? 7 then inr (Some work_item_7)
       else if id =? 8 then inr (Some work_item_8)
       else inl (OtherException "TF401232: Work item does not exist");
     get_attachment_content := fun _ => inr (pdf_chunks, None);
     create_attachment := fun _ _ _ => inr uploaded;
     update_work_item := fun document id _ =>
       inr (Some {| wi_id := id; rev := 4;
                    relations := Some (map value document) |}) |}.

Definition env : Environment :=
  {| get_work_item_client := inr client; guess_type := fun _ => None |}.

(** a host on which the client cannot be built *)
Definition env_offline : Environment :=
  {| get_work_item_client := inl (OtherException "connection refused");
     guess_type := fun _ => None |}.

Definition container_dirs : gset string :=
  {["/"; "/downloads"; "/uploads"; "/tmp"]}.

(** a container with nothing in its three directories *)
Definition fs_empty : FileSystem :=
  {| fs_files := ∅; fs_dirs := container_dirs; fs_denied := ∅; fs_cwd := "/app" |}.

(** [notes.txt] in [/uploads] only *)
Definition fs_uploads : FileSystem :=
  {| fs_files := <["/uploads/notes.txt" := [Byte.x68; Byte.x69]]> ∅;
     fs_dirs := container_dirs; fs_denied := ∅; fs_cwd := "/app" |}.

(** [notes.txt] reachable under that relative name only *)
Definition fs_relative : FileSystem :=
  {| fs_files := <["notes.txt" := [Byte.x68; Byte.x69]]> ∅;
     fs_dirs := container_dirs; fs_denied := ∅; fs_cwd := "/app" |}.

(** [report.txt] in [/data] and in [/downloads] *)
Definition fs_data : FileSystem :=
  {| fs_files := <["/data/report.txt" := [Byte.x31]]>
                   (<["/downloads/report.txt" := [Byte.x32]]> ∅);
     fs_dirs := {["/data"]} ∪ container_dirs; fs_denied := ∅; fs_cwd := "/app" |}.

Definition world_of (f : FileSystem) : World := {| fs := f; sdk_trace := [] |}.

(** a Windows path with one forward slash in it *)
Definition mixed_path : string :=
  String "C" (String ":" (String backslash "docs/report.txt")).

(** a Windows path with backslashes only *)
Definition windows_path : string :=
  String "C" (String ":" (String backslash ("docs" +:+ String backslash "report.txt"))).

End Examples.

(** ** Further abbreviations used in the statements *)

(** the wrapper of every message raised inside the download *)
Definition download_error (work_item_id : Z) (attachment_id msg : string) : exn :=
  AzureDevOpsClientError
    ("Error downloading attachment " +:+ attachment_id
     +:+ " from work item " +:+ pretty work_item_id +:+ ": " +:+ msg).

(** the wrapper of every message raised inside the attach step *)
Definition attach_error (work_item_id : Z) (msg : string) : exn :=
  AzureDevOpsClientError
    ("Error attaching file to work item " +:+ pretty work_item_id
     +:+ ": " +:+ msg).

(** the call by which the download looks the work item up (line 46) *)
Definition lookup_call (work_item_id : Z) : SdkCall :=
  CallGetWorkItem work_item_id (Some "relations").

(** the directory the download makes sure of (line 110) *)
Definition download_directory (cwd output_path : string) : string :=
  os_path_dirname (os_path_abspath cwd (download_final_path output_path)).

(** the file system once [data] has been written at the end of the file
    [name] *)
Definition file_appended (name : string) (data : bytes) (f : FileSystem) : FileSystem :=
  {| fs_files := alter (fun old => old ++ data) name (fs_files f);
     fs_dirs := fs_dirs f; fs_denied := fs_denied f; fs_cwd := fs_cwd f |}.

(** the dictionary a successful download returns (lines 120-125) *)
Definition download_result_of (info : AttachmentInfo) (size : Z)
    (final_path : string) : DownloadResult :=
  {| dl_filename := info_name info;
     dl_size := size;
     dl_content_type :=
       default (PyStr "application/octet-stream")
               (info_attributes info !! "contentType");
     dl_saved_to := final_path |}.

(** the dictionary a successful upload returns (lines 268-277) *)
Definition upload_result_of (env : Environment) (attachment : AttachmentReference)
    (file_path file_name container_path : string) (size : Z)
    (comment : option string) : UploadResult :=
  {| up_id := att_id attachment;
     up_url := att_url attachment;
     up_name := file_name;
     up_size := size;
     up_content_type := content_type_of env file_name;
     up_original_path := file_path;
     up_container_path := container_path;
     up_comment := comment |}.

(** a call is an upload of an attachment *)
Definition is_create_call (c : SdkCall) : bool :=
  match c with
  | CallCreateAttachment _ _ _ => true
  | _ => false
  end.

(** a call changes a work item *)
Definition is_update_call (c : SdkCall) : bool :=
  match c with
  | CallUpdateWorkItem _ _ _ => true
  | _ => false
  end.

(** ** Further concrete worlds *)

Module MoreExamples.
Import Examples.

(** a client whose content stream breaks after two chunks *)
Definition client_broken_stream : WorkItemTrackingClient :=
  {| get_work_item := get_work_item client;
     get_attachment_content := fun _ =>
       inr ([[Byte.x25; Byte.x50]; [Byte.x44]], Some (OtherException "connection reset"));
     create_attachment := create_attachment client;
     update_work_item := update_work_item client |}.

(** a client that cannot fetch content at all *)
Definition client_no_content : WorkItemTrackingClient :=
  {| get_work_item := get_work_item client;
     get_attachment_content := fun _ => inl (OtherException "403 Forbidden");
     create_attachment := create_attachment client;
     update_work_item := update_work_item client |}.


(** a client that rejects every upload, each stream with its own message *)
Definition client_rejects : WorkItemTrackingClient :=
  {| get_work_item := get_work_item client;
     get_attachment_content := get_attachment_content client;
     create_attachment := fun stream _ _ =>
       match stream with
       | FileObject _ _ => inl (OtherException "stream is not seekable")
       | BytesIO _ => inl (OtherException "413 Request Entity Too Large")
       end;
     update_work_item := update_work_item client |}.

(** a client for which no work item exists *)
Definition client_no_item : WorkItemTrackingClient :=
  {| get_work_item := fun _ _ => inr None;
     get_attachment_content := get_attachment_content client;
     create_attachment := create_attachment client;
     update_work_item := update_work_item client |}.

(** a client whose update is refused *)
Definition client_no_update : WorkItemTrackingClient :=
  {| get_work_item := get_work_item client;
     get_attachment_content := get_attachment_content client;
     create_attachment := create_attachment client;
     update_work_item := fun _ _ _ => inl (OtherException "TF401320: Rule Error") |}.

Definition env_of (c : WorkItemTrackingClient) : Environment :=
  {| get_work_item_client := inr c;
     guess_type := fun name =>
       if Str.endswith name ".pdf" then Some "application/pdf" else None |}.

(** [notes.txt] in all three container directories *)
Definition fs_everywhere : FileSystem :=
  {| fs_files := <["/downloads/notes.txt" := [Byte.x31]]>
                   (<["/uploads/notes.txt" := [Byte.x32]]>
                      (<["/tmp/notes.txt" := [Byte.x33]]> ∅));
     fs_dirs := container_dirs; fs_denied := ∅; fs_cwd := "/app" |}.

(** an old [report.txt] in [/downloads], and a file beside it *)
Definition fs_old_report : FileSystem :=
  {| fs_files := <["/downloads/report.txt" := [Byte.x6f; Byte.x6c; Byte.x64]]>
                   (<["/downloads/other.txt" := [Byte.x78]]> ∅);
     fs_dirs := container_dirs; fs_denied := ∅; fs_cwd := "/app" |}.

End MoreExamples.

(** * Properties *)

#[local] Arguments String.append : simpl nomatch.

(** ** Facts about the string operations *)

Module StrFacts.

Lemma prefix_app (p t : string) : String.prefix p (p +:+ t) = true.
Proof.
  induction p as [|a p IH]; simpl.
  - destruct t; reflexivity.
  - destruct (ascii_dec a a); [exact IH | congruence].
Qed.

Lemma prefix_inv (p s : string) :
  String.prefix p s = true -> exists t, s = p +:+ t.
Proof.
  revert p. induction s as [|b s IH]; intros [|a p] H; simpl in *.
  - exists ""; reflexivity.
  - discriminate.
  - exists (String b s); reflexivity.
  - destruct (ascii_dec a b) as [->|]; [|discriminate].
    destruct (IH p H) as [t ->]. exists t; reflexivity.
Qed.

Lemma app_cons (x : ascii) (a b : string) : String x a +:+ b = String x (a +:+ b).
Proof. reflexivity. Qed.

Lemma app_assoc (a b c : string) : (a +:+ b) +:+ c = a +:+ (b +:+ c).
Proof.
  induction a as [|x a IH]; [reflexivity|].
  rewrite !app_cons. f_equal. exact IH.
Qed.

Lemma app_empty_r (a : string) : a +:+ "" = a.
Proof.
  induction a as [|x a IH]; [reflexivity|].
  rewrite app_cons. f_equal. exact IH.
Qed.

(** [needle in hay] holds exactly when [hay] is [pre + needle + post]. *)
Lemma contains_of_prefix (needle hay : string) :
  String.prefix needle hay = true -> Str.contains needle hay = true.
Proof. intros H. destruct hay; simpl in *; now rewrite H. Qed.

(** [needle in hay] holds exactly when [hay] is [pre + needle + post]. *)
Lemma contains_intro (needle pre post : string) :
  Str.contains needle (pre +:+ needle +:+ post) = true.
Proof.
  induction pre as [|a pre IH].
  - change ("" +:+ needle +:+ post) with (needle +:+ post).
    apply contains_of_prefix, prefix_app.
  - rewrite app_cons. simpl. rewrite IH. apply orb_true_r.
Qed.

Lemma contains_inv (needle hay : string) :
  Str.contains needle hay = true ->
  exists pre post, hay = pre +:+ needle +:+ post.
Proof.
  induction hay as [|a hay IH]; simpl; intros H.
  - rewrite orb_false_r in H. destruct (prefix_inv needle "" H) as [t ->].
    exists "", t; reflexivity.
  - apply orb_true_iff in H as [H|H].
    + destruct (prefix_inv needle (String a hay) H) as [t ->]. exists "", t; reflexivity.
    + destruct (IH H) as (pre & post & ->). exists (String a pre), post; reflexivity.
Qed.

Lemma contains_refl (needle : string) : Str.contains needle needle = true.
Proof.
  apply contains_of_prefix. rewrite <- (app_empty_r needle) at 2.
  apply prefix_app.
Qed.

Lemma contains_app_r (needle s t : string) :
  Str.contains needle t = true -> Str.contains needle (s +:+ t) = true.
Proof.
  intros H. destruct (contains_inv needle t H) as (pre & post & ->).
  rewrite <- app_assoc. apply contains_intro.
Qed.

Lemma contains_iff (needle hay : string) :
  Str.contains needle hay = true <->
  exists pre post, hay = pre +:+ needle +:+ post.
Proof.
  split; [apply contains_inv | intros (pre & post & ->); apply contains_intro].
Qed.

Lemma prefix_char_cons (c a : ascii) (s : string) :
  String.prefix (String c "") (String a s) = Ascii.eqb a c.
Proof.
  simpl. destruct (ascii_dec c a) as [->|n].
  - rewrite Ascii.eqb_refl. now destruct s.
  - symmetry. apply Ascii.eqb_neq. congruence.
Qed.

(** membership of one character *)
Lemma contains_char_cons (c a : ascii) (s : string) :
  Str.contains (String c "") (String a s)
  = Ascii.eqb a c || Str.contains (String c "") s.
Proof.
  simpl. destruct (ascii_dec c a) as [->|n].
  - rewrite Ascii.eqb_refl. now destruct s.
  - assert (Ascii.eqb a c = false) as -> by (apply Ascii.eqb_neq; congruence).
    reflexivity.
Qed.

Lemma contains_char_app (c : ascii) (s t : string) :
  Str.contains (String c "") (s +:+ t)
  = Str.contains (String c "") s || Str.contains (String c "") t.
Proof.
  induction s as [|a s IH].
  - reflexivity.
  - rewrite app_cons, !contains_char_cons, IH. now rewrite orb_assoc.
Qed.

Lemma split_nonempty (c : ascii) (s : string) : Str.split c s <> [].
Proof.
  induction s as [|a s IH]; simpl; [discriminate|].
  destruct (Ascii.eqb a c); [discriminate|].
  destruct (Str.split c s); [contradiction | discriminate].
Qed.

(** a string without the separator is its own only component *)
Lemma split_without_sep (c : ascii) (s : string) :
  Str.contains (String c "") s = false -> Str.split c s = [s].
Proof.
  induction s as [|a s IH]; [reflexivity|].
  rewrite contains_char_cons. intros H.
  apply orb_false_iff in H as [Ha Hs]. simpl. rewrite Ha, (IH Hs). reflexivity.
Qed.

(** the last component of a split holds no separator *)
Lemma last_split_without_sep (c : ascii) (s : string) :
  Str.contains (String c "") (Str.last (Str.split c s)) = false.
Proof.
  induction s as [|a s IH]; [reflexivity|].
  unfold Str.last in *. simpl Str.split.
  destruct (Str.split c s) as [|h t] eqn:E; [now apply split_nonempty in E|].
  destruct (Ascii.eqb a c) eqn:Ha.
  - exact IH.
  - destruct t as [|h' t'].
    + simpl List.last in *. rewrite contains_char_cons, Ha. exact IH.
    + exact IH.
Qed.

Lemma split_singleton (c : ascii) (s h : string) :
  Str.split c s = [h] -> h = s.
Proof.
  revert h. induction s as [|a s IH]; intros h; simpl.
  - congruence.
  - destruct (Ascii.eqb a c).
    + intros H. injection H as _ H. now apply split_nonempty in H.
    + destruct (Str.split c s) as [|h' t] eqn:E; [now apply split_nonempty in E|].
      intros H. injection H as <- ->. f_equal. now apply IH.
Qed.

(** the last component is a suffix of the string *)
Lemma last_split_suffix (c : ascii) (s : string) :
  exists pre, s = pre +:+ Str.last (Str.split c s).
Proof.
  induction s as [|a s [pre IH]]; [exists ""; reflexivity|].
  unfold Str.last in *. simpl Str.split.
  destruct (Str.split c s) as [|h t] eqn:E; [now apply split_nonempty in E|].
  destruct (Ascii.eqb a c).
  - exists (String a pre). rewrite app_cons. f_equal. exact IH.
  - destruct t as [|h' t'].
    + simpl List.last in *. exists "".
      now rewrite (split_singleton c s h E).
    + exists (String a pre). rewrite app_cons. f_equal. exact IH.
Qed.

Lemma replace_without (a b : ascii) (s : string) :
  Str.contains (String a "") s = false -> Str.replace a b s = s.
Proof.
  induction s as [|x s IH]; [reflexivity|].
  rewrite contains_char_cons. intros H.
  apply orb_false_iff in H as [Hx Hs]. simpl. rewrite Hx, (IH Hs). reflexivity.
Qed.

End StrFacts.

(** ** Facts about the path operations *)

Module PathFacts.
Import StrFacts.

Lemma startswith_slash_false (name : string) :
  Str.contains "/" name = false -> Str.startswith name "/" = false.
Proof.
  destruct name as [|a s]; [reflexivity|].
  rewrite (contains_char_cons "/"%char a s). intros H.
  apply orb_false_iff in H as [Ha _].
  unfold Str.startswith. now rewrite (prefix_char_cons "/"%char a s).
Qed.

(** joining a directory that does not end in a slash with a relative name *)
Lemma join_relative (dir name : string) :
  Str.truthy dir = true -> Str.endswith dir "/" = false ->
  Str.startswith name "/" = false ->
  os_path_join dir name = dir +:+ "/" +:+ name.
Proof.
  intros Hd He Hn. unfold os_path_join. now rewrite Hn, Hd, He.
Qed.

Lemma basename_without_slash (p : string) :
  Str.contains "/" (os_path_basename p) = false.
Proof. apply (last_split_without_sep "/"%char). Qed.

Lemma basename_of_plain (p : string) :
  Str.contains "/" p = false -> os_path_basename p = p.
Proof.
  intros H. unfold os_path_basename.
  now rewrite (split_without_sep slash p H).
Qed.

Lemma windows_filename_without_slash (p : string) :
  Str.contains "/" (windows_filename p) = false.
Proof. apply (last_split_without_sep "/"%char). Qed.

Lemma windows_filename_of_plain (p : string) :
  Str.contains "/" p = false ->
  Str.contains (String backslash "") p = false ->
  windows_filename p = p.
Proof.
  intros Hs Hb. unfold windows_filename.
  rewrite (replace_without backslash slash p Hb).
  now rewrite (split_without_sep slash p Hs).
Qed.

Lemma download_filename_without_slash (output_path : string) :
  Str.contains "/" (download_filename output_path) = false.
Proof.
  unfold download_filename. destruct (is_windows_path output_path).
  - apply windows_filename_without_slash.
  - apply basename_without_slash.
Qed.

(** the save path is the downloads directory, a slash, and the file name *)
Lemma download_final_path_eq (output_path : string) :
  download_final_path output_path
  = "/downloads/" +:+ download_filename output_path.
Proof.
  unfold download_final_path.
  rewrite join_relative; try reflexivity.
  apply startswith_slash_false, download_filename_without_slash.
Qed.

Lemma dirname_under (name : string) :
  Str.contains "/" name = false ->
  os_path_dirname ("/downloads/" +:+ name) = "/downloads".
Proof.
  intros H. unfold os_path_dirname.
  assert (Str.split slash ("/downloads/" +:+ name) = [""; "downloads"; name]) as ->.
  { simpl. rewrite (split_without_sep slash name H). reflexivity. }
  reflexivity.
Qed.

Lemma basename_under (name : string) :
  Str.contains "/" name = false ->
  os_path_basename ("/downloads/" +:+ name) = name.
Proof.
  intros H. unfold os_path_basename.
  assert (Str.split slash ("/downloads/" +:+ name) = [""; "downloads"; name]) as ->.
  { simpl. rewrite (split_without_sep slash name H). reflexivity. }
  reflexivity.
Qed.

Lemma common_locations_eq (name : string) :
  Str.contains "/" name = false ->
  common_locations name
  = ["/downloads/" +:+ name; "/uploads/" +:+ name; "/tmp/" +:+ name].
Proof.
  intros H. unfold common_locations.
  rewrite !join_relative; try reflexivity; now apply startswith_slash_false.
Qed.

End PathFacts.

(** ** How the computations run *)

Section Runs.

Variable wit_client : WorkItemTrackingClient.

(** The relation loop returns at the first relation that passes the test. *)
Lemma scan_relations_find (attachment_id : string) (rels : list WorkItemRelation) :
  scan_relations attachment_id rels =
  match find (is_attachment attachment_id) rels with
  | Some relation =>
      match attachment_info_of relation with
      | inl e => inl e
      | inr info => inr (Some info)
      end
  | None => inr None
  end.
Proof.
  induction rels as [|relation rest IH]; simpl; [reflexivity|].
  destruct (is_attachment attachment_id relation); [reflexivity | exact IH].
Qed.

(** The attachment lookup, run on a world. *)
Lemma get_attachment_info_run (work_item_id : Z) (attachment_id : string) (w : World) :
  _get_attachment_info_from_work_item work_item_id attachment_id wit_client w =
  (match get_work_item wit_client work_item_id (Some "relations") with
   | inl e => inl (info_error (str_exn e))
   | inr work_item =>
       if lacks_relations work_item then
         inl (info_error ("No attachments found in work item " +:+ pretty work_item_id))
       else
         match scan_relations attachment_id (relations_of work_item) with
         | inl e => inl (info_error (str_exn e))
         | inr (Some info) => inr info
         | inr None =>
             inl (info_error ("Attachment " +:+ attachment_id
                              +:+ " not found in work item " +:+ pretty work_item_id))
         end
   end,
   after_call (CallGetWorkItem work_item_id (Some "relations")) w).
Proof.
  unfold _get_attachment_info_from_work_item, try_except, call_get_work_item,
    bind, record_call, lift, raise, ret, after_call, info_error.
  simpl.
  destruct (get_work_item wit_client work_item_id (Some "relations")) as [e|work_item];
    [reflexivity|].
  destruct (lacks_relations work_item); [reflexivity|].
  destruct (scan_relations attachment_id (relations_of work_item)) as [e|[info|]];
    reflexivity.
Qed.

(** Writing the chunks appends their concatenation to the open file and
    counts their bytes. *)
Lemma write_chunks_run (name : string) (chunks : list bytes) :
  forall (total_size : Z) (w : World) (old : bytes),
  fs_files (fs w) !! name = Some old ->
  exists f',
    write_chunks name chunks total_size w
    = (inr (total_size + Z.of_nat (length (concat chunks))), with_fs f' w)
    /\ fs_files f' !! name = Some (old ++ concat chunks).
Proof.
  induction chunks as [|chunk rest IH]; intros total_size w old Hold.
  - exists (fs w). simpl. unfold ret, with_fs. rewrite Z.add_0_r, app_nil_r.
    destruct w; auto.
  - simpl. unfold bind, f_write, update_fs. simpl.
    set (w1 := {| fs := _; sdk_trace := _ |}).
    destruct (IH (total_size + Z.of_nat (length chunk)) w1 (old ++ chunk))
      as (f' & Hrun & Hfile).
    { subst w1. simpl. rewrite lookup_alter_eq, Hold. reflexivity. }
    exists f'. rewrite Hrun. split.
    + unfold with_fs. subst w1. simpl. rewrite length_app. f_equal. f_equal. lia.
    + rewrite Hfile. now rewrite <- app_assoc.
Qed.

End Runs.

(** ** Attachment lookup and download *)

Section Download.

Variable wit_client : WorkItemTrackingClient.

Lemma attachment_info_of_text (relation : WorkItemRelation) :
  name_is_str relation = true ->
  attachment_info_of relation =
  inr {| info_name :=
           os_path_basename
             (str_obj (default (PyStr "") (attributes relation !! "name")));
         info_url := url relation;
         info_attributes := attributes relation |}.
Proof.
  unfold name_is_str, attachment_info_of.
  destruct (attributes relation !! "name") as [[s|z|b|]|]; simpl;
    intros H; try discriminate; reflexivity.
Qed.

Lemma find_first {A} (P : A -> bool) (pre : list A) (x : A) (post : list A) :
  Forall (fun y => P y = false) pre -> P x = true ->
  find P (pre ++ x :: post) = Some x.
Proof.
  induction 1 as [|y pre Hy _ IH]; intros Hx; simpl.
  - now rewrite Hx.
  - rewrite Hy. now apply IH.
Qed.

Lemma find_no_match {A} (P : A -> bool) (l : list A) :
  Forall (fun y => P y = false) l -> find P l = None.
Proof. induction 1 as [|y l Hy _ IH]; simpl; [reflexivity | now rewrite Hy]. Qed.

Lemma lacks_relations_false (wi : WorkItem) (rels : list WorkItemRelation) :
  relations wi = Some rels -> rels <> [] ->
  lacks_relations (Some wi) = false /\ relations_of (Some wi) = rels.
Proof.
  intros H Hne. unfold lacks_relations, relations_of. rewrite H.
  destruct rels; [contradiction | split; reflexivity].
Qed.

(** C9. Attachment lookup matches relations by substring, not by exact
    id: a relation passes the test exactly when its [rel] is
    [AttachedFile] and the attachment id occurs somewhere in its [url];
    of several matching relations the first in the order of the work
    item's relation list is the one returned, and without a match the
    lookup fails with "not found". *)
Theorem attachment_lookup_first_substring_match
    (work_item_id : Z) (attachment_id : string) (w : World)
    (wi : WorkItem) (rels : list WorkItemRelation) :
  get_work_item wit_client work_item_id (Some "relations") = inr (Some wi) ->
  relations wi = Some rels ->
  rels <> [] ->
  (forall relation,
      is_attachment attachment_id relation = true <->
      rel relation = "AttachedFile" /\
      exists pre post, url relation = pre +:+ attachment_id +:+ post)
  /\ (forall pre relation post,
        rels = pre ++ relation :: post ->
        Forall (fun r => is_attachment attachment_id r = false) pre ->
        is_attachment attachment_id relation = true ->
        name_is_str relation = true ->
        exists info,
          (_get_attachment_info_from_work_item
             work_item_id attachment_id wit_client w).1 = inr info
          /\ info_url info = url relation
          /\ info_attributes info = attributes relation
          /\ attachment_info_of relation = inr info)
  /\ (Forall (fun r => is_attachment attachment_id r = false) rels ->
      (_get_attachment_info_from_work_item
         work_item_id attachment_id wit_client w).1
      = inl (info_error ("Attachment " +:+ attachment_id
                         +:+ " not found in work item " +:+ pretty work_item_id))).
Proof.
  intros Hget Hrels Hne.
  destruct (lacks_relations_false wi rels Hrels Hne) as [Hlack Hof].
  split; [|split].
  - intros relation. unfold is_attachment.
    rewrite andb_true_iff, String.eqb_eq, StrFacts.contains_iff. reflexivity.
  - intros pre relation post -> Hpre Hrel Hname.
    rewrite get_attachment_info_run, Hget, Hlack, Hof, scan_relations_find.
    rewrite (find_first _ pre relation post Hpre Hrel).
    rewrite (attachment_info_of_text relation Hname).
    eexists. simpl. repeat split; reflexivity.
  - intros Hnone.
    rewrite get_attachment_info_run, Hget, Hlack, Hof, scan_relations_find.
    now rewrite (find_no_match _ rels Hnone).
Qed.

(** C5. A work item whose relation list is empty or absent makes the
    download fail; the error, and the text the tool returns, carry
    "No attachments found in work item <id>", and nothing is written. *)
Theorem download_without_relations
    (env : Environment) (work_item_id : Z) (attachment_id output_path : string)
    (w : World) (wi : WorkItem) :
  get_work_item_client env = inr wit_client ->
  get_work_item wit_client work_item_id (Some "relations") = inr (Some wi) ->
  relations wi = None \/ relations wi = Some [] ->
  let condition := "No attachments found in work item " +:+ pretty work_item_id in
  let message :=
    "Error downloading attachment " +:+ attachment_id
    +:+ " from work item " +:+ pretty work_item_id
    +:+ ": Error getting attachment information: " +:+ condition in
  let w' := after_call (CallGetWorkItem work_item_id (Some "relations")) w in
  _download_attachment_impl work_item_id attachment_id output_path wit_client w
  = (inl (AzureDevOpsClientError message), w')
  /\ download_work_item_attachment env work_item_id attachment_id output_path w
     = ("Error: " +:+ message, w')
  /\ Str.contains condition message = true
  /\ Str.contains condition ("Error: " +:+ message) = true
  /\ fs w' = fs w.
Proof.
  intros Hclient Hget Hrel condition message w'.
  assert (lacks_relations (Some wi) = true) as Hlack.
  { unfold lacks_relations. destruct Hrel as [-> | ->]; reflexivity. }
  assert (_download_attachment_impl work_item_id attachment_id output_path wit_client w
          = (inl (AzureDevOpsClientError message), w')) as Himpl.
  { unfold _download_attachment_impl, try_except, bind.
    rewrite get_attachment_info_run, Hget, Hlack. reflexivity. }
  split; [exact Himpl|]. split; [|split; [|split]].
  - unfold download_work_item_attachment, download_tool_body, bind, lift.
    rewrite Hclient, Himpl. reflexivity.
  - subst message. clearbody condition.
    repeat apply StrFacts.contains_app_r. apply StrFacts.contains_refl.
  - subst message. clearbody condition.
    repeat apply StrFacts.contains_app_r. apply StrFacts.contains_refl.
  - reflexivity.
Qed.

End Download.

Section DownloadRun.

Variable wit_client : WorkItemTrackingClient.

Lemma open_wb_not_directory (name : string) (f f' : FileSystem) :
  Fs.open_wb name f = inr f' -> Fs.names_directory name = false.
Proof.
  unfold Fs.open_wb. destruct (Fs.names_directory name); [|reflexivity].
  now rewrite orb_true_r.
Qed.

Lemma open_wb_empties (name : string) (f f' : FileSystem) :
  Fs.open_wb name f = inr f' -> fs_files f' !! name = Some [].
Proof.
  unfold Fs.open_wb.
  destruct (Fs.is_dir f name || Fs.names_directory name); [discriminate|].
  destruct (Fs.is_denied f name); [discriminate|].
  intros [= <-]. simpl. apply lookup_insert_eq.
Qed.

(** lines 113-118 on a file that can be opened and a generator that runs
    to its end *)
Lemma save_content_run (final_path : string) (chunks : list bytes)
    (w : World) (f1 : FileSystem) :
  Fs.open_wb final_path (fs w) = inr f1 ->
  exists f2,
    save_content final_path (chunks, None) w
    = (inr (Z.of_nat (length (concat chunks))), with_fs f2 w)
    /\ fs_files f2 !! final_path = Some (concat chunks).
Proof.
  intros Hopen. unfold save_content, bind, open_wb, update_fs. rewrite Hopen.
  destruct (write_chunks_run final_path chunks 0
              {| fs := f1; sdk_trace := sdk_trace w |} [])
    as (f2 & Hrun & Hfile).
  { simpl. now apply open_wb_empties with (f := fs w). }
  exists f2. simpl fst. rewrite Hrun. split; [reflexivity | exact Hfile].
Qed.

(** What a successful download went through. *)
Lemma download_success_inv (work_item_id : Z) (attachment_id output_path : string)
    (w w' : World) (result : DownloadResult) :
  _download_attachment_impl work_item_id attachment_id output_path wit_client w
  = (inr result, w') ->
  let final_path := download_final_path output_path in
  exists info chunks,
    (_get_attachment_info_from_work_item work_item_id attachment_id wit_client w).1
    = inr info
    /\ get_attachment_content wit_client attachment_id = inr (chunks, None)
    /\ result = {| dl_filename := info_name info;
                   dl_size := Z.of_nat (length (concat chunks));
                   dl_content_type :=
                     default (PyStr "application/octet-stream")
                             (info_attributes info !! "contentType");
                   dl_saved_to := final_path |}
    /\ fs_files (fs w') !! final_path = Some (concat chunks)
    /\ Fs.names_directory final_path = false
    /\ sdk_trace w' = sdk_trace w ++ [CallGetWorkItem work_item_id (Some "relations");
                                      CallGetAttachmentContent attachment_id].
Proof.
  intros Hrun final_path.
  unfold _download_attachment_impl, try_except in Hrun.
  unfold bind at 1 in Hrun.
  rewrite get_attachment_info_run in *.
  set (looked := match get_work_item wit_client work_item_id (Some "relations") with
                 | inl e => _ | inr work_item => _ end) in *.
  destruct looked as [e|info]; [discriminate|].
  exists info.
  unfold bind at 1, call_get_attachment_content in Hrun.
  unfold bind at 1, record_call, lift in Hrun.
  destruct (get_attachment_content wit_client attachment_id) as [e|[chunks ending]];
    [discriminate|].
  exists chunks.
  unfold bind at 1, os_getcwd, read_fs in Hrun.
  unfold bind at 1, os_makedirs, update_fs in Hrun. simpl fs in Hrun.
  destruct (Fs.makedirs _ (fs w)) as [e|f1]; [discriminate|].
  unfold bind at 1 in Hrun.
  unfold save_content, bind, open_wb, update_fs in Hrun. simpl fs in Hrun.
  fold final_path in Hrun.
  destruct (Fs.open_wb final_path f1) as [e|f2] eqn:Hopen; [discriminate|].
  simpl fst in Hrun. simpl snd in Hrun.
  destruct (write_chunks_run final_path chunks 0
              {| fs := f2; sdk_trace :=
                   sdk_trace (after_call (CallGetWorkItem work_item_id (Some "relations")) w)
                   ++ [CallGetAttachmentContent attachment_id] |} [])
    as (f3 & Hwrite & Hfile).
  { simpl. now apply open_wb_empties with (f := f1). }
  simpl sdk_trace in *. rewrite Hwrite in Hrun.
  destruct ending as [e|]; [discriminate|].
  unfold ret in Hrun. injection Hrun as <- <-.
  repeat split; try reflexivity.
  - exact Hfile.
  - now apply open_wb_not_directory with (f := f1) (f' := f2).
  - simpl. now rewrite <- app_assoc.
Qed.

End DownloadRun.

Section DownloadProperties.

Variable wit_client : WorkItemTrackingClient.

(** C1. When the work item's relation list contains an [AttachedFile]
    relation matching the attachment id, the download writes to the
    resolved save path exactly the concatenation of the chunks the
    content generator yields, and the size it reports is the number of
    bytes written, the sum of the chunk lengths. *)
Theorem download_writes_content_stream
    (work_item_id : Z) (attachment_id output_path : string) (w : World)
    (wi : WorkItem) (rels : list WorkItemRelation) (relation : WorkItemRelation)
    (chunks : list bytes) (f1 f2 : FileSystem) :
  get_work_item wit_client work_item_id (Some "relations") = inr (Some wi) ->
  relations wi = Some rels ->
  In relation rels ->
  is_attachment attachment_id relation = true ->
  Forall (fun r => name_is_str r = true) rels ->
  get_attachment_content wit_client attachment_id = inr (chunks, None) ->
  let final_path := download_final_path output_path in
  Fs.makedirs (os_path_dirname (os_path_abspath (fs_cwd (fs w)) final_path)) (fs w)
  = inr f1 ->
  Fs.open_wb final_path f1 = inr f2 ->
  exists result w',
    _download_attachment_impl work_item_id attachment_id output_path wit_client w
    = (inr result, w')
    /\ fs_files (fs w') !! final_path = Some (concat chunks)
    /\ dl_saved_to result = final_path
    /\ dl_size result = Z.of_nat (length (concat chunks))
    /\ dl_size result = Z.of_nat (list_sum (map length chunks)).
Proof.
  intros Hget Hrels Hin Hmatch Hwf Hcontent final_path Hmk Hopen.
  assert (rels <> []) as Hne.
  { intros E. rewrite E in Hin. destruct Hin. }
  destruct (lacks_relations_false wi rels Hrels Hne) as [Hlack Hof].
  destruct (find (is_attachment attachment_id) rels) as [first|] eqn:Hfind.
  2:{ pose proof (find_none _ _ Hfind relation Hin) as Hno. congruence. }
  destruct (find_some _ _ Hfind) as [Hfirst_in Hfirst].
  assert (name_is_str first = true) as Hname.
  { rewrite List.Forall_forall in Hwf. now apply Hwf. }
  unfold _download_attachment_impl, try_except.
  unfold bind at 1.
  rewrite get_attachment_info_run, Hget, Hlack, Hof, scan_relations_find, Hfind.
  rewrite (attachment_info_of_text first Hname).
  unfold bind at 1, call_get_attachment_content.
  unfold bind at 1, record_call, lift. rewrite Hcontent.
  unfold bind at 1, os_getcwd, read_fs.
  unfold bind at 1, os_makedirs, update_fs. simpl fs.
  fold final_path. rewrite Hmk.
  unfold bind at 1.
  match goal with
  | |- context [save_content final_path (chunks, None) ?w1] =>
      destruct (save_content_run final_path chunks w1 f2 Hopen)
        as (f3 & Hsave & Hfile)
  end.
  rewrite Hsave. unfold ret.
  eexists. eexists. split; [reflexivity|]. simpl.
  repeat split; try assumption. now rewrite length_concat.
Qed.

(** C6. Whatever the form of [output_path], a successful download saves
    the file directly inside [/downloads]: the save path is [/downloads]
    joined with the file name component extracted from [output_path],
    which holds no directory component and is neither empty nor [.] nor
    [..]. *)
Theorem download_saves_into_downloads
    (work_item_id : Z) (attachment_id output_path : string)
    (w w' : World) (result : DownloadResult) :
  _download_attachment_impl work_item_id attachment_id output_path wit_client w
  = (inr result, w') ->
  let filename := download_filename output_path in
  dl_saved_to result = os_path_join "/downloads" filename
  /\ dl_saved_to result = "/downloads/" +:+ filename
  /\ Str.contains "/" filename = false
  /\ (filename <> "" /\ filename <> "." /\ filename <> "..")
  /\ os_path_dirname (dl_saved_to result) = "/downloads"
  /\ os_path_basename (dl_saved_to result) = filename
  /\ filename = (if is_windows_path output_path
                 then windows_filename output_path
                 else os_path_basename output_path)
  /\ (exists pre, output_path = pre +:+ filename
                  \/ Str.replace backslash slash output_path = pre +:+ filename)
  /\ is_Some (fs_files (fs w') !! dl_saved_to result).
Proof.
  intros Hrun filename.
  destruct (download_success_inv wit_client _ _ _ _ _ _ Hrun)
    as (info & chunks & _ & _ & -> & Hfile & Hnodir & _).
  simpl dl_saved_to.
  pose proof (PathFacts.download_filename_without_slash output_path) as Hplain.
  fold filename in Hplain.
  rewrite PathFacts.download_final_path_eq in *. fold filename in Hfile, Hnodir |- *.
  unfold Fs.names_directory in Hnodir.
  rewrite (PathFacts.basename_under filename Hplain) in Hnodir.
  apply orb_false_iff in Hnodir as [[Hempty Hdot]%orb_false_iff Hdotdot].
  apply String.eqb_neq in Hempty, Hdot, Hdotdot.
  split; [|split; [reflexivity|split; [exact Hplain|split; [tauto|]]]].
  { rewrite PathFacts.join_relative; try reflexivity.
    now apply PathFacts.startswith_slash_false. }
  repeat split.
  - now apply PathFacts.dirname_under.
  - now apply PathFacts.basename_under.
  - subst filename. unfold download_filename.
    destruct (is_windows_path output_path).
    + destruct (StrFacts.last_split_suffix slash (Str.replace backslash slash output_path))
        as [pre Hpre].
      exists pre. right. exact Hpre.
    + destruct (StrFacts.last_split_suffix slash output_path) as [pre Hpre].
      exists pre. left. exact Hpre.
  - rewrite Hfile. eauto.
Qed.

End DownloadProperties.

(** ** Upload: the file locator *)

Section Locator.

Lemma path_exists_truthy (f : FileSystem) (loc : string) :
  Fs.path_exists f loc = true -> Str.truthy loc = true.
Proof. unfold Fs.path_exists. now intros [H _]%andb_true_iff. Qed.

(** The probing loop leaves the world as it is and yields the first
    location that exists. *)
Lemma probe_run (locs : list string) (w : World) :
  probe locs w = (inr (find (Fs.path_exists (fs w)) locs), w).
Proof.
  induction locs as [|loc rest IH]; simpl; [reflexivity|].
  unfold bind, os_path_exists, read_fs, ret. simpl.
  destruct (Fs.path_exists (fs w) loc); [reflexivity | exact IH].
Qed.

Lemma probe_then_require (file_path : string) (locs : list string) (w : World) :
  bind (probe locs) (require_found file_path) w =
  (match find (Fs.path_exists (fs w)) locs with
   | Some loc => inr loc
   | None => inl (AzureDevOpsClientError (not_found_message file_path))
   end, w).
Proof.
  unfold bind. rewrite probe_run.
  destruct (find (Fs.path_exists (fs w)) locs) as [loc|] eqn:Hfind; [|reflexivity].
  apply find_some in Hfind as [_ Hex].
  unfold require_found. now rewrite (path_exists_truthy _ _ Hex).
Qed.

(** The locator, run on a world: the first searched location that
    exists, or the failure. *)
Lemma locate_run (file_path : string) (w : World) :
  locate_container_path file_path w =
  (match find (Fs.path_exists (fs w)) (searched_locations file_path) with
   | Some loc => inr loc
   | None => inl (AzureDevOpsClientError (locate_failure_message file_path))
   end, w).
Proof.
  unfold locate_container_path, searched_locations, locate_failure_message,
    under_container_prefix.
  destruct (is_windows_path file_path); cbn [negb andb].
  - apply probe_then_require.
  - destruct (Str.startswith file_path "/"); cbn [andb].
    + unfold bind at 1, os_path_exists, read_fs. cbn [fs].
      destruct (Str.startswith_any file_path _); cbn [find];
        destruct (Fs.path_exists (fs w) file_path); cbn [negb];
        try reflexivity.
      apply probe_then_require.
    + apply probe_then_require.
Qed.

Lemma locate_failure_message_prefix (file_path : string) :
  Str.startswith (locate_failure_message file_path)
                 ("File not found: " +:+ file_path) = true.
Proof.
  unfold locate_failure_message, not_found_message, Str.startswith.
  destruct (under_container_prefix file_path).
  - rewrite <- (StrFacts.app_empty_r ("File not found: " +:+ file_path)) at 2.
    apply StrFacts.prefix_app.
  - rewrite <- (StrFacts.app_assoc "File not found: " file_path).
    apply StrFacts.prefix_app.
Qed.

End Locator.

Section LocatorProperties.

(** C2 (as the code has it). For every user-supplied path the locator
    tests a fixed ordered list of locations for existence, returns the
    first one that exists, and fails with a not-found error when none
    exists.  The list depends on the form of the path: for a Windows-style
    path, [/downloads], [/uploads] and [/tmp] joined with its file name;
    for an absolute POSIX path, the path itself and then, unless the path
    already lies under one of the three directories, the three
    directories joined with its base name; for any other path, the three
    directories joined with the path and then the path itself. *)
Theorem locator_returns_first_existing_location (file_path : string) (w : World) :
  locate_container_path file_path w =
  (match find (Fs.path_exists (fs w)) (searched_locations file_path) with
   | Some loc => inr loc
   | None => inl (AzureDevOpsClientError (locate_failure_message file_path))
   end, w)
  /\ Str.startswith (locate_failure_message file_path)
                    ("File not found: " +:+ file_path) = true
  /\ (is_windows_path file_path = true ->
      searched_locations file_path =
      [os_path_join "/downloads" (windows_filename file_path);
       os_path_join "/uploads" (windows_filename file_path);
       os_path_join "/tmp" (windows_filename file_path)])
  /\ (is_windows_path file_path = false ->
      Str.startswith file_path "/" = true ->
      searched_locations file_path =
      if Str.startswith_any file_path ["/downloads/"; "/uploads/"; "/tmp/"]
      then [file_path]
      else [file_path;
            os_path_join "/downloads" (os_path_basename file_path);
            os_path_join "/uploads" (os_path_basename file_path);
            os_path_join "/tmp" (os_path_basename file_path)])
  /\ (is_windows_path file_path = false ->
      Str.startswith file_path "/" = false ->
      searched_locations file_path =
      [os_path_join "/downloads" file_path;
       os_path_join "/uploads" file_path;
       os_path_join "/tmp" file_path;
       file_path]).
Proof.
  split; [apply locate_run|].
  split; [apply locate_failure_message_prefix|].
  unfold searched_locations. repeat split.
  - now intros ->.
  - intros -> ->. now destruct (Str.startswith_any file_path _).
  - now intros -> ->.
Qed.

(** C7. An upload path given as a bare file name that exists in exactly
    one of [/downloads], [/uploads] and [/tmp] resolves to that
    directory's file: the container path is that directory joined with
    the file name. *)
Theorem bare_filename_resolves_to_its_directory
    (file_path : string) (w : World) (dir : string) :
  Str.contains "/" file_path = false ->
  Str.contains (String backslash "") file_path = false ->
  In dir ["/downloads"; "/uploads"; "/tmp"] ->
  Fs.path_exists (fs w) (os_path_join dir file_path) = true ->
  (forall other, In other ["/downloads"; "/uploads"; "/tmp"] -> other <> dir ->
     Fs.path_exists (fs w) (os_path_join other file_path) = false) ->
  locate_container_path file_path w = (inr (os_path_join dir file_path), w).
Proof.
  intros Hslash Hback Hdir Hex Hothers.
  rewrite locate_run.
  assert (exists rest, searched_locations file_path = common_locations file_path ++ rest)
    as [rest ->].
  { unfold searched_locations. destruct (is_windows_path file_path).
    - exists []. rewrite (PathFacts.windows_filename_of_plain file_path Hslash Hback).
      now rewrite app_nil_r.
    - rewrite (PathFacts.startswith_slash_false file_path Hslash). now eexists. }
  unfold common_locations. cbn [app find].
  simpl in Hdir. destruct Hdir as [<-|[<-|[<-|[]]]].
  - now rewrite Hex.
  - rewrite (Hothers "/downloads") by (simpl; auto || discriminate).
    now rewrite Hex.
  - rewrite (Hothers "/downloads") by (simpl; auto || discriminate).
    rewrite (Hothers "/uploads") by (simpl; auto || discriminate).
    now rewrite Hex.
Qed.

End LocatorProperties.

(** ** Upload and attach *)

Section Upload.

Variable env : Environment.
Variable wit_client : WorkItemTrackingClient.

(** lines 239-266 run on a world *)
Lemma upload_stream_run (container_path file_name : string) (w : World) :
  upload_stream_of wit_client container_path file_name w =
  match Fs.open_rb container_path (fs w) with
  | inl e => (inl e, w)
  | inr content =>
      let direct := FileObject container_path content in
      let w1 := after_call (CallCreateAttachment direct file_name "simple") w in
      match create_attachment wit_client direct file_name "simple" with
      | inr attachment => (inr attachment, w1)
      | inl _ =>
          (create_attachment wit_client (BytesIO content) file_name "simple",
           after_call (CallCreateAttachment (BytesIO content) file_name "simple") w1)
      end
  end.
Proof.
  unfold upload_stream_of, try_except, bind, open_rb, read_fs,
    call_create_attachment, bind, record_call, lift, after_call.
  cbn [fs].
  destruct (Fs.open_rb container_path (fs w)) as [e|content] eqn:Hopen.
  - now rewrite Hopen.
  - destruct (create_attachment wit_client (FileObject container_path content) _ _);
      [|reflexivity].
    cbn [fs]. now rewrite Hopen.
Qed.

(** What a successful upload went through. *)
Lemma upload_success_inv (file_path : string) (file_name comment : option string)
    (w w' : World) (result : UploadResult) :
  _upload_attachment_impl env file_path file_name comment wit_client w
  = (inr result, w') ->
  exists container_path calls,
    find (Fs.path_exists (fs w)) (searched_locations file_path) = Some container_path
    /\ up_container_path result = container_path
    /\ up_name result = effective_file_name file_path file_name
    /\ up_original_path result = file_path
    /\ fs w' = fs w
    /\ sdk_trace w' = sdk_trace w ++ calls
    /\ upload_calls_of (effective_file_name file_path file_name) calls.
Proof.
  unfold _upload_attachment_impl, try_except. unfold bind at 1.
  rewrite locate_run.
  destruct (find (Fs.path_exists (fs w)) (searched_locations file_path))
    as [container_path|]; [|discriminate].
  unfold bind at 1. rewrite upload_stream_run.
  set (name := effective_file_name file_path file_name).
  destruct (Fs.open_rb container_path (fs w)) as [e|content]; [discriminate|].
  cbv zeta.
  destruct (create_attachment wit_client (FileObject container_path content) name "simple")
    as [e|attachment].
  - destruct (create_attachment wit_client (BytesIO content) name "simple")
      as [e2|attachment]; [discriminate|].
    unfold bind, os_path_getsize, read_fs. cbn [fs after_call].
    destruct (Fs.getsize container_path (fs w)); [discriminate|].
    unfold ret. intros [= <- <-].
    exists container_path,
      [CallCreateAttachment (FileObject container_path content) name "simple";
       CallCreateAttachment (BytesIO content) name "simple"].
    cbn. rewrite <- app_assoc. repeat split; try reflexivity; try discriminate.
    repeat constructor; eauto.
  - unfold bind, os_path_getsize, read_fs. cbn [fs after_call].
    destruct (Fs.getsize container_path (fs w)); [discriminate|].
    unfold ret. intros [= <- <-].
    exists container_path,
      [CallCreateAttachment (FileObject container_path content) name "simple"].
    cbn. repeat split; try reflexivity; try discriminate.
    repeat constructor; eauto.
Qed.

(** C3 (as the code has it). When none of the locations the locator
    searches for an upload path exists, the upload fails with a
    "File not found" error that names the path, and so does the tool; the
    message lists the searched directories unless the path is an absolute
    POSIX path that already lies under one of them. *)
Theorem upload_fails_when_nothing_found
    (work_item_id : Z) (file_path : string) (file_name comment : option string)
    (w : World) :
  Forall (fun loc => Fs.path_exists (fs w) loc = false) (searched_locations file_path) ->
  let message := locate_failure_message file_path in
  _upload_attachment_impl env file_path file_name comment wit_client w
  = (inl (upload_error file_path message), w)
  /\ Str.startswith message ("File not found: " +:+ file_path) = true
  /\ (under_container_prefix file_path = false ->
      message = not_found_message file_path
      /\ Str.contains "/downloads, /uploads, or /tmp" message = true)
  /\ (under_container_prefix file_path = true ->
      message = "File not found: " +:+ file_path)
  /\ (get_work_item_client env = inr wit_client ->
      upload_attachment_to_work_item env work_item_id file_path file_name comment w
      = ("Error: Error uploading attachment " +:+ file_path +:+ ": " +:+ message, w)).
Proof.
  intros Hnone message.
  assert (_upload_attachment_impl env file_path file_name comment wit_client w
          = (inl (upload_error file_path message), w)) as Himpl.
  { unfold _upload_attachment_impl, try_except. unfold bind at 1.
    rewrite locate_run, (find_no_match _ _ Hnone). reflexivity. }
  split; [exact Himpl|].
  split; [apply locate_failure_message_prefix|].
  subst message. unfold locate_failure_message. repeat split.
  - now rewrite H.
  - rewrite H. unfold not_found_message.
    repeat apply StrFacts.contains_app_r.
    change "in the container in one of these directories: /downloads, /uploads, or /tmp."
      with ("in the container in one of these directories: "
            +:+ "/downloads, /uploads, or /tmp" +:+ ".").
    apply StrFacts.contains_intro.
  - now intros ->.
  - intros Hclient.
    unfold upload_attachment_to_work_item, upload_tool_body. unfold bind at 1.
    unfold lift. rewrite Hclient. unfold bind at 1.
    fold (locate_failure_message file_path). rewrite Himpl. reflexivity.
Qed.

End Upload.

Section UploadName.

Variable env : Environment.
Variable wit_client : WorkItemTrackingClient.

Lemma replace_removes (a b : ascii) (s : string) :
  a <> b -> Str.contains (String a "") (Str.replace a b s) = false.
Proof.
  intros Hab. induction s as [|x s IH]; [reflexivity|].
  simpl Str.replace. rewrite StrFacts.contains_char_cons, IH, orb_false_r.
  destruct (Ascii.eqb x a) eqn:Hx.
  - apply Ascii.eqb_neq. congruence.
  - exact Hx.
Qed.

(** the file name searched for a Windows path holds no backslash *)
Lemma windows_filename_without_backslash (p : string) :
  Str.contains (String backslash "") (windows_filename p) = false.
Proof.
  unfold windows_filename.
  destruct (StrFacts.last_split_suffix slash (Str.replace backslash slash p))
    as [pre Hpre].
  pose proof (replace_removes backslash slash p) as Hno.
  rewrite Hpre, StrFacts.contains_char_app in Hno.
  apply orb_false_iff in Hno; [tauto | discriminate].
Qed.

Lemma basename_of_common_location (name loc : string) :
  Str.contains "/" name = false ->
  In loc (common_locations name) -> os_path_basename loc = name.
Proof.
  intros H. rewrite (PathFacts.common_locations_eq name H).
  intros [<-|[<-|[<-|[]]]]; unfold os_path_basename; simpl Str.split;
    rewrite (StrFacts.split_without_sep slash name H); reflexivity.
Qed.

(** C10 (as the code has it). When [file_name] is omitted, the name sent
    to the SDK and reported in the result is [os.path.basename] of the
    path the user supplied, not of the resolved container path: it is
    what follows the last forward slash of the path.  For a path with
    backslashes and no forward slash it is therefore the entire path
    string, and differs from the base name of the container path. *)
Theorem upload_default_name_is_basename_of_original
    (file_path : string) (file_name comment : option string)
    (w w' : World) (result : UploadResult) :
  file_name = None \/ file_name = Some "" ->
  _upload_attachment_impl env file_path file_name comment wit_client w
  = (inr result, w') ->
  up_name result = os_path_basename file_path
  /\ (exists calls,
        sdk_trace w' = sdk_trace w ++ calls
        /\ upload_calls_of (os_path_basename file_path) calls)
  /\ (exists pre, file_path = pre +:+ up_name result)
  /\ Str.contains "/" (up_name result) = false
  /\ (Str.contains "/" file_path = false ->
      up_name result = file_path
      /\ (Str.contains (String backslash "") file_path = true ->
          os_path_basename (up_container_path result) = windows_filename file_path
          /\ os_path_basename (up_container_path result) <> up_name result)).
Proof.
  intros Hname Hrun.
  destruct (upload_success_inv env wit_client _ _ _ _ _ _ Hrun)
    as (container_path & calls & Hfind & Hcp & Hn & _ & _ & Htrace & Hcalls).
  assert (effective_file_name file_path file_name = os_path_basename file_path) as Heff.
  { destruct Hname as [-> | ->]; reflexivity. }
  rewrite Heff in *. rewrite Hn, Hcp.
  split; [reflexivity|].
  split; [exists calls; split; assumption|].
  split; [apply (StrFacts.last_split_suffix slash)|].
  split; [apply PathFacts.basename_without_slash|].
  intros Hslash. split; [now apply PathFacts.basename_of_plain|].
  intros Hback.
  assert (is_windows_path file_path = true) as Hwin.
  { unfold is_windows_path. now rewrite Hback. }
  apply find_some in Hfind as [Hin _].
  unfold searched_locations in Hin. rewrite Hwin in Hin.
  assert (os_path_basename container_path = windows_filename file_path) as Hbase.
  { apply basename_of_common_location; [|exact Hin].
    apply PathFacts.windows_filename_without_slash. }
  split; [exact Hbase|].
  rewrite Hbase, (PathFacts.basename_of_plain file_path Hslash).
  intros Heq. pose proof (windows_filename_without_backslash file_path) as Hno.
  rewrite Heq in Hno. congruence.
Qed.

End UploadName.

Section Attach.

Variable env : Environment.
Variable wit_client : WorkItemTrackingClient.

(** What a successful attach step went through. *)
Lemma attach_success_inv
    (work_item_id : Z) (attachment_id attachment_name : string)
    (comment : option string) (w w' : World) (result : AttachResult) :
  _attach_file_to_work_item_impl
    work_item_id attachment_id attachment_name comment wit_client w
  = (inr result, w') ->
  let document := patch_document_for attachment_id attachment_name comment in
  exists updated,
    update_work_item wit_client document work_item_id false = inr (Some updated)
    /\ result = {| ar_work_item_id := work_item_id;
                   ar_attachment_id := attachment_id;
                   ar_attachment_name := attachment_name;
                   ar_comment := comment_or_empty comment;
                   updated_work_item_rev := rev updated |}
    /\ fs w' = fs w
    /\ sdk_trace w' =
       sdk_trace w ++ [CallGetWorkItem work_item_id None;
                       CallUpdateWorkItem document work_item_id false].
Proof.
  intros Hrun document.
  unfold _attach_file_to_work_item_impl, try_except, call_get_work_item,
    call_update_work_item, bind, record_call, lift, raise, ret in Hrun.
  cbn [fs sdk_trace] in Hrun.
  destruct (get_work_item wit_client work_item_id None) as [e|[wi|]];
    try discriminate.
  fold document in Hrun.
  destruct (update_work_item wit_client document work_item_id false)
    as [e|[updated|]]; try discriminate.
  injection Hrun as <- <-. exists updated. cbn.
  rewrite <- app_assoc. repeat split.
Qed.

(** C8. In every successful upload-and-attach invocation the attach step
    issues one patch, whose single operation adds an [AttachedFile]
    relation for the uploaded attachment to the relation list of the
    target work item, and the result of the step carries the revision
    number of the updated work item that the SDK returned. *)
Theorem attach_patches_relations_and_returns_revision
    (work_item_id : Z) (attachment_id attachment_name : string)
    (comment : option string) (w w' : World) (result : AttachResult) :
  _attach_file_to_work_item_impl
    work_item_id attachment_id attachment_name comment wit_client w
  = (inr result, w') ->
  let document := patch_document_for attachment_id attachment_name comment in
  (exists updated,
     update_work_item wit_client document work_item_id false = inr (Some updated)
     /\ updated_work_item_rev result = rev updated)
  /\ ar_work_item_id result = work_item_id
  /\ sdk_trace w' =
     sdk_trace w ++ [CallGetWorkItem work_item_id None;
                     CallUpdateWorkItem document work_item_id false]
  /\ (exists operation,
        document = [operation]
        /\ op operation = "add"
        /\ path operation = "/relations/-"
        /\ rel (value operation) = "AttachedFile"
        /\ url (value operation) = attachment_id
        /\ attributes (value operation) !! "name" = Some (PyStr attachment_name)
        /\ attributes (value operation) !! "comment"
           = Some (PyStr (comment_or_empty comment)))
  /\ (forall (file_path : string) (file_name : option string)
             (w0 w2 : World) (text : string),
        get_work_item_client env = inr wit_client ->
        upload_tool_body env work_item_id file_path file_name comment w0
        = (inr text, w2) ->
        exists upload_result calls updated,
          sdk_trace w2 =
          sdk_trace w0 ++ calls
          ++ [CallGetWorkItem work_item_id None;
              CallUpdateWorkItem
                (patch_document_for (up_url upload_result) (up_name upload_result)
                                    comment)
                work_item_id false]
          /\ upload_calls_of (up_name upload_result) calls
          /\ update_work_item wit_client
               (patch_document_for (up_url upload_result) (up_name upload_result)
                                   comment)
               work_item_id false = inr (Some updated)).
Proof.
  intros Hrun document.
  destruct (attach_success_inv _ _ _ _ _ _ _ Hrun) as (updated & Hup & -> & _ & Htrace).
  fold document in Hup, Htrace.
  split; [exists updated; split; [exact Hup | reflexivity]|].
  split; [reflexivity|]. split; [exact Htrace|]. split.
  - eexists. split; [reflexivity|]. cbn.
    repeat split; try reflexivity.
  - intros file_path file_name w0 w2 text Hclient Hbody.
    unfold upload_tool_body in Hbody. unfold bind at 1, lift in Hbody.
    rewrite Hclient in Hbody. unfold bind at 1 in Hbody.
    destruct (_upload_attachment_impl env file_path file_name comment wit_client w0)
      as [[e|upload_result] w1] eqn:Hupload; [discriminate|].
    unfold bind at 1 in Hbody.
    destruct (_attach_file_to_work_item_impl work_item_id (up_url upload_result)
                (up_name upload_result) comment wit_client w1)
      as [[e|attach_result] w3] eqn:Hattach; [discriminate|].
    unfold ret in Hbody. injection Hbody as _ <-.
    destruct (upload_success_inv env wit_client _ _ _ _ _ _ Hupload)
      as (cp & calls & _ & _ & Hname & _ & _ & Htr1 & Hcalls).
    destruct (attach_success_inv _ _ _ _ _ _ _ Hattach)
      as (updated' & Hup' & _ & _ & Htr2).
    exists upload_result, calls, updated'.
    rewrite <- Hname in Hcalls.
    rewrite Htr2, Htr1, <- app_assoc.
    split; [reflexivity|]. split; [exact Hcalls | exact Hup'].
Qed.

End Attach.

(** ** The tools: failures become result text *)

Section Tools.

Variable env : Environment.

(** A [try] block whose handler re-raises as [AzureDevOpsClientError]
    fails with nothing else. *)
Lemma try_except_wraps {A} (m : M A) (wrap : exn -> string)
    (w w' : World) (e : exn) :
  try_except m (fun caught => raise (AzureDevOpsClientError (wrap caught))) w
  = (inl e, w') ->
  exists msg, e = AzureDevOpsClientError msg.
Proof.
  unfold try_except, raise. destruct (m w) as [[caught|a] w1]; intros [= <- <-].
  eauto.
Qed.

Lemma download_failure_is_client_error (wit_client : WorkItemTrackingClient)
    (work_item_id : Z) (attachment_id output_path : string) (w w' : World) (e : exn) :
  _download_attachment_impl work_item_id attachment_id output_path wit_client w
  = (inl e, w') ->
  exists msg, e = AzureDevOpsClientError msg.
Proof. unfold _download_attachment_impl. apply try_except_wraps. Qed.

Lemma upload_failure_is_client_error (wit_client : WorkItemTrackingClient)
    (file_path : string) (file_name comment : option string) (w w' : World) (e : exn) :
  _upload_attachment_impl env file_path file_name comment wit_client w = (inl e, w') ->
  exists msg, e = AzureDevOpsClientError msg.
Proof. unfold _upload_attachment_impl. apply try_except_wraps. Qed.

Lemma attach_failure_is_client_error (wit_client : WorkItemTrackingClient)
    (work_item_id : Z) (attachment_id attachment_name : string)
    (comment : option string) (w w' : World) (e : exn) :
  _attach_file_to_work_item_impl
    work_item_id attachment_id attachment_name comment wit_client w = (inl e, w') ->
  exists msg, e = AzureDevOpsClientError msg.
Proof. unfold _attach_file_to_work_item_impl. apply try_except_wraps. Qed.

Lemma download_body_failure (wit_client : WorkItemTrackingClient)
    (work_item_id : Z) (attachment_id output_path : string) (w w' : World) (e : exn) :
  get_work_item_client env = inr wit_client ->
  download_tool_body env work_item_id attachment_id output_path w = (inl e, w') ->
  exists msg, e = AzureDevOpsClientError msg.
Proof.
  intros Hclient. unfold download_tool_body. unfold bind at 1, lift.
  rewrite Hclient. unfold bind at 1.
  destruct (_download_attachment_impl _ _ _ _ w) as [[e0|result] w1] eqn:Himpl.
  - intros [= <- <-]. eapply download_failure_is_client_error, Himpl.
  - discriminate.
Qed.

Lemma upload_body_failure (wit_client : WorkItemTrackingClient)
    (work_item_id : Z) (file_path : string) (file_name comment : option string)
    (w w' : World) (e : exn) :
  get_work_item_client env = inr wit_client ->
  upload_tool_body env work_item_id file_path file_name comment w = (inl e, w') ->
  exists msg, e = AzureDevOpsClientError msg.
Proof.
  intros Hclient. unfold upload_tool_body. unfold bind at 1, lift.
  rewrite Hclient. unfold bind at 1.
  destruct (_upload_attachment_impl _ _ _ _ _ w) as [[e0|upload_result] w1] eqn:Hup.
  - intros [= <- <-]. eapply upload_failure_is_client_error, Hup.
  - unfold bind at 1.
    destruct (_attach_file_to_work_item_impl _ _ _ _ _ w1)
      as [[e0|attach_result] w2] eqn:Hat.
    + intros [= <- <-]. eapply attach_failure_is_client_error, Hat.
    + discriminate.
Qed.

(** C4 (as the code has it). Every failure of a tool invocation is caught
    at the outermost call and returned as the result text, a readable
    string that begins with [Error]: [Error: <message>] for an
    [AzureDevOpsClientError], which is what every failure is once the
    client has been obtained, and [Error downloading attachment:
    <message>] or [Error uploading attachment: <message>] for any other
    exception. *)
Theorem tool_failures_are_returned_as_error_text (work_item_id : Z) :
  (forall (attachment_id output_path : string) (w w' : World) (e : exn),
     download_tool_body env work_item_id attachment_id output_path w = (inl e, w') ->
     let text :=
       match e with
       | AzureDevOpsClientError msg => "Error: " +:+ msg
       | OtherException msg => "Error downloading attachment: " +:+ msg
       end in
     download_work_item_attachment env work_item_id attachment_id output_path w
     = (text, w')
     /\ Str.startswith text "Error" = true
     /\ (forall wit_client, get_work_item_client env = inr wit_client ->
         text = "Error: " +:+ str_exn e /\ Str.startswith text "Error:" = true))
  /\
  (forall (file_path : string) (file_name comment : option string)
          (w w' : World) (e : exn),
     upload_tool_body env work_item_id file_path file_name comment w = (inl e, w') ->
     let text :=
       match e with
       | AzureDevOpsClientError msg => "Error: " +:+ msg
       | OtherException msg => "Error uploading attachment: " +:+ msg
       end in
     upload_attachment_to_work_item env work_item_id file_path file_name comment w
     = (text, w')
     /\ Str.startswith text "Error" = true
     /\ (forall wit_client, get_work_item_client env = inr wit_client ->
         text = "Error: " +:+ str_exn e /\ Str.startswith text "Error:" = true)).
Proof.
  split.
  - intros attachment_id output_path w w' e Hbody text.
    split; [|split].
    + unfold download_work_item_attachment. rewrite Hbody. now destruct e.
    + subst text. now destruct e.
    + intros wit_client Hclient.
      destruct (download_body_failure wit_client _ _ _ _ _ _ Hclient Hbody) as [msg ->].
      split; reflexivity.
  - intros file_path file_name comment w w' e Hbody text.
    split; [|split].
    + unfold upload_attachment_to_work_item. rewrite Hbody. now destruct e.
    + subst text. now destruct e.
    + intros wit_client Hclient.
      destruct (upload_body_failure wit_client _ _ _ _ _ _ _ Hclient Hbody) as [msg ->].
      split; reflexivity.
Qed.

End Tools.

(** ** The properties on concrete worlds *)

Module Witnesses.
Import Examples.

(** C1 on work item 7: five bytes in three chunks reach
    [/downloads/report.txt]. *)
Lemma download_writes_content_stream_witness :
  exists result w',
    _download_attachment_impl 7 "abc-123" windows_path client (world_of fs_empty)
    = (inr result, w')
    /\ fs_files (fs w') !! "/downloads/report.txt"
       = Some [Byte.x25; Byte.x50; Byte.x44; Byte.x46; Byte.x0a]
    /\ dl_saved_to result = "/downloads/report.txt"
    /\ dl_size result = 5
    /\ dl_size result = 5.
Proof.
  eapply (download_writes_content_stream client 7 "abc-123" windows_path
            (world_of fs_empty) work_item_7 _ relation_report pdf_chunks).
  - reflexivity.
  - reflexivity.
  - simpl. auto.
  - reflexivity.
  - repeat constructor.
  - reflexivity.
  - vm_compute. reflexivity.
  - vm_compute. reflexivity.
Defined.

(** C5 on work item 8, which has no relation list. *)
Lemma download_without_relations_witness :
  (download_work_item_attachment env 8 "abc-123" "out.bin" (world_of fs_empty)).1
  = "Error: Error downloading attachment abc-123 from work item 8: Error getting attachment information: No attachments found in work item 8".
Proof.
  destruct (download_without_relations client env 8 "abc-123" "out.bin"
              (world_of fs_empty) work_item_8) as (_ & Htool & _).
  - reflexivity.
  - reflexivity.
  - left. reflexivity.
  - rewrite Htool. vm_compute. reflexivity.
Defined.

(** C6 on a POSIX path with directories. *)
Lemma download_saves_into_downloads_witness :
  exists result w',
    _download_attachment_impl 7 "abc-123" "reports/2024/q1.pdf" client
      (world_of fs_empty) = (inr result, w')
    /\ dl_saved_to result = "/downloads/q1.pdf"
    /\ os_path_dirname (dl_saved_to result) = "/downloads".
Proof.
  eassert (_download_attachment_impl 7 "abc-123" "reports/2024/q1.pdf" client
             (world_of fs_empty) = (inr _, _)) as Hrun
    by (vm_compute; reflexivity).
  destruct (download_saves_into_downloads client _ _ _ _ _ _ Hrun)
    as (_ & Hpath & _ & _ & Hdir & _).
  eexists. eexists. split; [exact Hrun|]. split; [exact Hpath | exact Hdir].
Defined.

(** C9 on work item 7: the link whose url holds the id is passed over,
    and of the two matching attachments the first is returned. *)
Lemma attachment_lookup_first_substring_match_witness :
  is_attachment "abc-123" relation_link = false
  /\ is_attachment "abc-123" relation_copy = true
  /\ exists info,
       (_get_attachment_info_from_work_item 7 "abc-123" client (world_of fs_empty)).1
       = inr info
       /\ info_url info = url relation_report.
Proof.
  split; [reflexivity|]. split; [reflexivity|].
  destruct (attachment_lookup_first_substring_match client 7 "abc-123"
              (world_of fs_empty) work_item_7
              [relation_link; relation_report; relation_copy])
    as (_ & Hfirst & _).
  - reflexivity.
  - reflexivity.
  - discriminate.
  - destruct (Hfirst [relation_link] relation_report [relation_copy])
      as (info & Hrun & Hurl & _).
    + reflexivity.
    + repeat constructor.
    + reflexivity.
    + reflexivity.
    + exists info. split; [exact Hrun | exact Hurl].
Defined.

(** C7 on [notes.txt], present in [/uploads] only. *)
Lemma bare_filename_resolves_to_its_directory_witness :
  locate_container_path "notes.txt" (world_of fs_uploads)
  = (inr "/uploads/notes.txt", world_of fs_uploads).
Proof.
  apply (bare_filename_resolves_to_its_directory "notes.txt"
           (world_of fs_uploads) "/uploads").
  - reflexivity.
  - reflexivity.
  - simpl. auto.
  - vm_compute. reflexivity.
  - intros other [<-|[<-|[<-|[]]]] Hne; try (vm_compute; reflexivity).
    now destruct Hne.
Defined.

(** C2 as amended, on the same file. *)
Lemma locator_returns_first_existing_location_witness :
  locate_container_path "notes.txt" (world_of fs_uploads)
  = (inr "/uploads/notes.txt", world_of fs_uploads).
Proof.
  rewrite (proj1 (locator_returns_first_existing_location "notes.txt"
                    (world_of fs_uploads))).
  vm_compute. reflexivity.
Defined.

(** C3 as amended, on a name found nowhere. *)
Lemma upload_fails_when_nothing_found_witness :
  (_upload_attachment_impl env "missing.txt" None None client (world_of fs_empty)).1
  = inl (AzureDevOpsClientError
           "Error uploading attachment missing.txt: File not found: missing.txt. Please ensure the file is available in the container in one of these directories: /downloads, /uploads, or /tmp.").
Proof.
  destruct (upload_fails_when_nothing_found env client 7 "missing.txt" None None
              (world_of fs_empty)) as (Himpl & _).
  - vm_compute. repeat constructor.
  - rewrite Himpl. vm_compute. reflexivity.
Defined.

(** C4 as amended, on a download that fails inside the implementation. *)
Lemma tool_failures_are_returned_as_error_text_witness :
  Str.startswith
    (download_work_item_attachment env 9 "abc-123" "out.bin" (world_of fs_empty)).1
    "Error: " = true.
Proof.
  eassert (download_tool_body env 9 "abc-123" "out.bin" (world_of fs_empty)
           = (inl _, _)) as Hbody by (vm_compute; reflexivity).
  destruct (proj1 (tool_failures_are_returned_as_error_text env 9) _ _ _ _ _ Hbody)
    as (Htool & _ & _).
  rewrite Htool. vm_compute. reflexivity.
Defined.

(** C8 on work item 7: the answer of the SDK carries revision 4. *)
Lemma attach_patches_relations_and_returns_revision_witness :
  exists result w',
    _attach_file_to_work_item_impl 7 (att_url uploaded) "notes.txt" (Some "minutes")
      client (world_of fs_uploads) = (inr result, w')
    /\ updated_work_item_rev result = 4
    /\ sdk_trace w' =
       [CallGetWorkItem 7 None;
        CallUpdateWorkItem
          (patch_document_for (att_url uploaded) "notes.txt" (Some "minutes")) 7 false].
Proof.
  eassert (_attach_file_to_work_item_impl 7 (att_url uploaded) "notes.txt"
             (Some "minutes") client (world_of fs_uploads) = (inr _, _)) as Hrun
    by (vm_compute; reflexivity).
  destruct (attach_patches_relations_and_returns_revision env client _ _ _ _ _ _ _ Hrun)
    as ((updated & Hup & Hrev) & _ & Htrace & _).
  eexists. eexists. split; [exact Hrun|]. split; [|exact Htrace].
  rewrite Hrev. injection Hup as <-. reflexivity.
Defined.

(** C10 as amended, on a path with backslashes only: the name is the
    whole path, the file is found under its last component. *)
Lemma upload_default_name_is_basename_of_original_witness :
  exists result w',
    _upload_attachment_impl env windows_path None None client (world_of fs_data)
    = (inr result, w')
    /\ up_name result = windows_path
    /\ up_container_path result = "/downloads/report.txt".
Proof.
  eassert (_upload_attachment_impl env windows_path None None client
             (world_of fs_data) = (inr _, _)) as Hrun
    by (vm_compute; reflexivity).
  destruct (upload_default_name_is_basename_of_original env client _ _ _ _ _ _
              (or_introl eq_refl) Hrun) as (_ & _ & _ & _ & Hplain).
  destruct (Hplain eq_refl) as [Hname _].
  eexists. eexists. split; [exact Hrun|]. split; [exact Hname | reflexivity].
Defined.

End Witnesses.

(** ** Where the code departs from a statement *)

Module Counterexamples.
Import Examples.

(** C2 as stated fails. (1) [notes.txt] is in none of [/downloads],
    [/uploads], [/tmp], yet the locator does not fail: the relative path
    itself exists and is returned.  (2) For [/data/report.txt] the first
    existing candidate of the three directories is
    [/downloads/report.txt], yet the locator returns the path itself.
    (3) For [/tmp/report.txt], which does not exist, the candidate
    [/downloads/report.txt] exists, yet the locator fails. *)
Lemma locator_three_directories_counterexample :
  (find (Fs.path_exists fs_relative) (common_locations "notes.txt") = None
   /\ locate_container_path "notes.txt" (world_of fs_relative)
      = (inr "notes.txt", world_of fs_relative))
  /\ (find (Fs.path_exists fs_data)
           (common_locations (os_path_basename "/data/report.txt"))
      = Some "/downloads/report.txt"
      /\ locate_container_path "/data/report.txt" (world_of fs_data)
         = (inr "/data/report.txt", world_of fs_data))
  /\ (find (Fs.path_exists fs_data)
           (common_locations (os_path_basename "/tmp/report.txt"))
      = Some "/downloads/report.txt"
      /\ locate_container_path "/tmp/report.txt" (world_of fs_data)
         = (inl (AzureDevOpsClientError "File not found: /tmp/report.txt"),
            world_of fs_data)).
Proof. vm_compute. repeat split. Qed.

(** C3 as stated fails. (1) [notes.txt] is in none of the three
    directories, yet the upload succeeds from the relative path.
    (2) [/tmp/missing.txt] is in none of them and the upload fails, but
    its message does not list the searched locations. *)
Lemma upload_not_found_counterexample :
  (find (Fs.path_exists fs_relative) (common_locations "notes.txt") = None
   /\ exists result,
        (_upload_attachment_impl env "notes.txt" None None client
           (world_of fs_relative)).1 = inr result
        /\ up_container_path result = "notes.txt")
  /\ (find (Fs.path_exists fs_empty)
           (common_locations (os_path_basename "/tmp/missing.txt")) = None
      /\ exists message,
           (_upload_attachment_impl env "/tmp/missing.txt" None None client
              (world_of fs_empty)).1 = inl (AzureDevOpsClientError message)
           /\ message
              = "Error uploading attachment /tmp/missing.txt: File not found: /tmp/missing.txt"
           /\ Str.contains "/downloads" message = false
           /\ Str.contains "/uploads" message = false).
Proof.
  split; split; try (vm_compute; reflexivity).
  - eexists. split; vm_compute; reflexivity.
  - eexists. split; [vm_compute; reflexivity|]. repeat split.
Qed.

(** C4 as stated fails: when building the client raises an exception
    other than [AzureDevOpsClientError], the text of either tool begins
    with [Error downloading attachment:] or [Error uploading attachment:],
    not with [Error:]. *)
Lemma tool_error_prefix_counterexample :
  ((download_work_item_attachment env_offline 7 "abc-123" "out.bin"
      (world_of fs_empty)).1
   = "Error downloading attachment: connection refused"
   /\ Str.startswith
        (download_work_item_attachment env_offline 7 "abc-123" "out.bin"
           (world_of fs_empty)).1 "Error:" = false)
  /\ ((upload_attachment_to_work_item env_offline 7 "notes.txt" None None
         (world_of fs_uploads)).1
      = "Error uploading attachment: connection refused"
      /\ Str.startswith
           (upload_attachment_to_work_item env_offline 7 "notes.txt" None None
              (world_of fs_uploads)).1 "Error:" = false).
Proof. vm_compute. repeat split. Qed.

(** C10 as stated fails in its last part: a path that contains a
    backslash and also a forward slash gets as its name what follows the
    forward slash, not the entire path string. *)
Lemma upload_default_name_counterexample :
  Str.contains (String backslash "") mixed_path = true
  /\ exists result,
       (_upload_attachment_impl env mixed_path None None client
          (world_of fs_data)).1 = inr result
       /\ up_name result = "report.txt"
       /\ up_name result <> mixed_path
       /\ sdk_trace
            (_upload_attachment_impl env mixed_path None None client
               (world_of fs_data)).2
          = [CallCreateAttachment (FileObject "/downloads/report.txt" [Byte.x32])
               "report.txt" "simple"].
Proof.
  split; [reflexivity|].
  eexists. split; [vm_compute; reflexivity|].
  split; [reflexivity|]. split; [discriminate | vm_compute; reflexivity].
Qed.

End Counterexamples.

(** ** The path operations on sample paths *)

Module PathExamples.

Example basename_samples :
  os_path_basename "/a/b/c.txt" = "c.txt"
  /\ os_path_basename "a" = "a"
  /\ os_path_basename "/a/" = "".
Proof. repeat split. Qed.

Example dirname_samples :
  os_path_dirname "/downloads/x" = "/downloads"
  /\ os_path_dirname "/x" = "/"
  /\ os_path_dirname "x" = ""
  /\ os_path_dirname "/a//b" = "/a".
Proof. repeat split. Qed.

Example normpath_samples :
  os_path_normpath "/downloads/.." = "/"
  /\ os_path_normpath "/downloads/" = "/downloads"
  /\ os_path_normpath "a/../../b" = "../b"
  /\ os_path_normpath "//a/./b" = "//a/b"
  /\ os_path_normpath "///a" = "/a".
Proof. repeat split. Qed.

Example join_samples :
  os_path_join "/downloads" "a.txt" = "/downloads/a.txt"
  /\ os_path_join "/downloads" "/x" = "/x"
  /\ os_path_join "/downloads" "" = "/downloads/".
Proof. repeat split. Qed.

Example windows_samples :
  is_windows_path Examples.windows_path = true
  /\ is_windows_path "C:/docs/report.txt" = true
  /\ is_windows_path "ab:c" = false
  /\ is_windows_path "/tmp/a.txt" = false
  /\ windows_filename Examples.windows_path = "report.txt".
Proof. repeat split. Qed.

End PathExamples.

(** ** The download, the upload and the attach step as equations *)

Section RunEquations.

Variable env : Environment.
Variable wit_client : WorkItemTrackingClient.

Lemma file_appended_nil (name : string) (f : FileSystem) :
  file_appended name [] f = f.
Proof.
  destruct f as [files dirs denied cwd]. unfold file_appended. simpl. f_equal.
  apply alter_id. intros old _. apply app_nil_r.
Qed.

Lemma file_appended_app (name : string) (a b : bytes) (f : FileSystem) :
  file_appended name b (file_appended name a f) = file_appended name (a ++ b) f.
Proof.
  unfold file_appended. simpl. f_equal.
  apply map_eq. intros p. destruct (decide (name = p)) as [<-|Hne].
  - rewrite !lookup_alter_eq. destruct (fs_files f !! name); simpl; [|reflexivity].
    now rewrite <- app_assoc.
  - now rewrite !lookup_alter_ne.
Qed.

Lemma with_fs_same (w : World) : with_fs (fs w) w = w.
Proof. now destruct w. Qed.

(** The loop over the generator appends the concatenation of the chunks. *)
Lemma write_chunks_appended (name : string) (chunks : list bytes) :
  forall (total_size : Z) (w : World),
  write_chunks name chunks total_size w
  = (inr (total_size + Z.of_nat (length (concat chunks))),
     with_fs (file_appended name (concat chunks) (fs w)) w).
Proof.
  induction chunks as [|chunk rest IH]; intros total_size w.
  - simpl. unfold ret. rewrite Z.add_0_r, file_appended_nil, with_fs_same.
    reflexivity.
  - change (write_chunks name (chunk :: rest) total_size w)
      with (bind (f_write name chunk)
              (fun _ => write_chunks name rest
                          (total_size + Z.of_nat (length chunk))) w).
    unfold bind at 1. unfold f_write, update_fs, Fs.write.
    rewrite IH. unfold with_fs. cbn [fs sdk_trace concat].
    fold (file_appended name chunk (fs w)).
    rewrite file_appended_app, length_app. f_equal. f_equal. lia.
Qed.

(** lines 113-118 on any generator *)
Lemma save_content_eq (final_path : string) (gen : ContentGenerator) (w : World) :
  save_content final_path gen w =
  match Fs.open_wb final_path (fs w) with
  | inl e => (inl e, w)
  | inr opened =>
      (match snd gen with
       | Some e => inl e
       | None => inr (Z.of_nat (length (concat (fst gen))))
       end,
       with_fs (file_appended final_path (concat (fst gen)) opened) w)
  end.
Proof.
  unfold save_content, bind, open_wb, update_fs.
  destruct (Fs.open_wb final_path (fs w)) as [e|opened]; [reflexivity|].
  rewrite write_chunks_appended. unfold with_fs. simpl.
  destruct (snd gen); reflexivity.
Qed.

(** The download, run on a world. *)
Lemma download_eq (work_item_id : Z) (attachment_id output_path : string) (w : World) :
  _download_attachment_impl work_item_id attachment_id output_path wit_client w =
  let fail e := inl (download_error work_item_id attachment_id (str_exn e)) in
  let final_path := download_final_path output_path in
  let w1 := after_call (lookup_call work_item_id) w in
  let w2 := after_call (CallGetAttachmentContent attachment_id) w1 in
  match (_get_attachment_info_from_work_item
           work_item_id attachment_id wit_client w).1 with
  | inl e => (fail e, w1)
  | inr info =>
      match get_attachment_content wit_client attachment_id with
      | inl e => (fail e, w2)
      | inr gen =>
          match Fs.makedirs (download_directory (fs_cwd (fs w)) output_path) (fs w) with
          | inl e => (fail e, w2)
          | inr made =>
              match Fs.open_wb final_path made with
              | inl e => (fail e, with_fs made w2)
              | inr opened =>
                  (match snd gen with
                   | Some e => fail e
                   | None =>
                       inr (download_result_of info
                              (Z.of_nat (length (concat (fst gen)))) final_path)
                   end,
                   with_fs (file_appended final_path (concat (fst gen)) opened) w2)
              end
          end
      end
  end.
Proof.
  cbv zeta.
  unfold _download_attachment_impl, try_except. unfold bind at 1.
  rewrite get_attachment_info_run. cbn [fst].
  set (looked := match get_work_item wit_client work_item_id (Some "relations") with
                 | inl e => _ | inr work_item => _ end).
  destruct looked as [e|info]; [reflexivity|].
  unfold bind at 1, call_get_attachment_content.
  unfold bind at 1, record_call, lift.
  destruct (get_attachment_content wit_client attachment_id) as [e|gen];
    [reflexivity|].
  unfold bind at 1, os_getcwd, read_fs.
  unfold bind at 1, os_makedirs, update_fs. cbn [fs after_call].
  fold (download_directory (fs_cwd (fs w)) output_path).
  destruct (Fs.makedirs _ (fs w)) as [e|made]; [reflexivity|].
  unfold bind at 1. rewrite save_content_eq. cbn [fs].
  destruct (Fs.open_wb (download_final_path output_path) made) as [e|opened];
    [reflexivity|].
  destruct (snd gen); reflexivity.
Qed.

(** Reading a file that could be opened gives its content and its size. *)
Lemma open_rb_content (name : string) (f : FileSystem) (content : bytes) :
  Fs.open_rb name f = inr content ->
  fs_files f !! name = Some content
  /\ Fs.getsize name f = inr (Z.of_nat (length content)).
Proof.
  unfold Fs.open_rb, Fs.getsize. destruct (Fs.is_denied f name); [discriminate|].
  destruct (fs_files f !! name) as [c|].
  - intros [= ->]. split; reflexivity.
  - destruct (Fs.is_dir f name); discriminate.
Qed.

(** The upload, run on a world. *)
Lemma upload_eq (file_path : string) (file_name comment : option string) (w : World) :
  _upload_attachment_impl env file_path file_name comment wit_client w =
  let fail e := inl (upload_error file_path (str_exn e)) in
  let name := effective_file_name file_path file_name in
  match find (Fs.path_exists (fs w)) (searched_locations file_path) with
  | None => (inl (upload_error file_path (locate_failure_message file_path)), w)
  | Some container_path =>
      match Fs.open_rb container_path (fs w) with
      | inl e => (fail e, w)
      | inr content =>
          let direct := FileObject container_path content in
          let w1 := after_call (CallCreateAttachment direct name "simple") w in
          let w2 := after_call (CallCreateAttachment (BytesIO content) name "simple") w1 in
          let done attachment :=
            inr (upload_result_of env attachment file_path name container_path
                   (Z.of_nat (length content)) comment) in
          match create_attachment wit_client direct name "simple" with
          | inr attachment => (done attachment, w1)
          | inl _ =>
              match create_attachment wit_client (BytesIO content) name "simple" with
              | inr attachment => (done attachment, w2)
              | inl e => (fail e, w2)
              end
          end
      end
  end.
Proof.
  cbv zeta.
  unfold _upload_attachment_impl, try_except. unfold bind at 1.
  rewrite locate_run.
  destruct (find (Fs.path_exists (fs w)) (searched_locations file_path))
    as [container_path|]; [|reflexivity].
  unfold bind at 1. rewrite upload_stream_run.
  destruct (Fs.open_rb container_path (fs w)) as [e|content] eqn:Hopen;
    [reflexivity|].
  destruct (open_rb_content _ _ _ Hopen) as [_ Hsize].
  cbv zeta.
  destruct (create_attachment wit_client (FileObject container_path content) _ _)
    as [e1|attachment].
  - destruct (create_attachment wit_client (BytesIO content) _ _) as [e2|attachment];
      [reflexivity|].
    unfold bind, os_path_getsize, read_fs. cbn [fs after_call]. rewrite Hsize.
    reflexivity.
  - unfold bind, os_path_getsize, read_fs. cbn [fs after_call]. rewrite Hsize.
    reflexivity.
Qed.

(** The attach step, run on a world. *)
Lemma attach_eq (work_item_id : Z) (attachment_id attachment_name : string)
    (comment : option string) (w : World) :
  _attach_file_to_work_item_impl
    work_item_id attachment_id attachment_name comment wit_client w =
  let fail msg := inl (attach_error work_item_id msg) in
  let document := patch_document_for attachment_id attachment_name comment in
  let w1 := after_call (CallGetWorkItem work_item_id None) w in
  let w2 := after_call (CallUpdateWorkItem document work_item_id false) w1 in
  match get_work_item wit_client work_item_id None with
  | inl e => (fail (str_exn e), w1)
  | inr None => (fail ("Work item " +:+ pretty work_item_id +:+ " not found"), w1)
  | inr (Some _) =>
      match update_work_item wit_client document work_item_id false with
      | inl e => (fail (str_exn e), w2)
      | inr None => (fail "'NoneType' object has no attribute 'rev'", w2)
      | inr (Some updated) =>
          (inr {| ar_work_item_id := work_item_id;
                  ar_attachment_id := attachment_id;
                  ar_attachment_name := attachment_name;
                  ar_comment := comment_or_empty comment;
                  updated_work_item_rev := rev updated |}, w2)
      end
  end.
Proof.
  cbv zeta.
  unfold _attach_file_to_work_item_impl, try_except, call_get_work_item,
    call_update_work_item, bind, record_call, lift, raise, ret, after_call,
    attach_error.
  cbn [fs sdk_trace].
  destruct (get_work_item wit_client work_item_id None) as [e|[wi|]];
    try reflexivity.
  destruct (update_work_item wit_client _ work_item_id false) as [e|[updated|]];
    reflexivity.
Qed.

End RunEquations.

(** ** More on the download *)

Section DownloadExtras.

Variable env : Environment.
Variable wit_client : WorkItemTrackingClient.

Lemma file_appended_lookup (name : string) (data : bytes) (f : FileSystem) :
  fs_files (file_appended name data f) !! name
  = (fun old => old ++ data) <$> fs_files f !! name.
Proof. apply lookup_alter_eq. Qed.

Lemma file_appended_other (name p : string) (data : bytes) (f : FileSystem) :
  p <> name ->
  fs_files (file_appended name data f) !! p = fs_files f !! p.
Proof. intros H. apply lookup_alter_ne. congruence. Qed.

(** what [os.makedirs] leaves of a file system *)
Lemma makedirs_frame (name : string) (f made : FileSystem) :
  Fs.makedirs name f = inr made ->
  fs_files made = fs_files f /\ fs_denied made = fs_denied f
  /\ fs_cwd made = fs_cwd f
  /\ (fs_dirs made = fs_dirs f \/ fs_dirs made = {[name]} ∪ fs_dirs f).
Proof.
  unfold Fs.makedirs. destruct (Fs.is_dir f name).
  - intros [= <-]. auto.
  - destruct (Fs.is_file f name); [discriminate|].
    destruct (Fs.is_denied f name); [discriminate|].
    intros [= <-]. simpl. auto.
Qed.

(** what [open(name, 'wb')] leaves of a file system *)
Lemma open_wb_frame (name : string) (f opened : FileSystem) :
  Fs.open_wb name f = inr opened ->
  fs_files opened = <[name := []]> (fs_files f)
  /\ fs_dirs opened = fs_dirs f /\ fs_denied opened = fs_denied f
  /\ fs_cwd opened = fs_cwd f
  /\ Fs.is_denied f name = false.
Proof.
  unfold Fs.open_wb.
  destruct (Fs.is_dir f name || Fs.names_directory name); [discriminate|].
  destruct (Fs.is_denied f name); [discriminate|].
  intros [= <-]. simpl. auto.
Qed.

Lemma dirs_grow (d : string) (before after : gset string) :
  after = before \/ after = {[d]} ∪ before ->
  before ⊆ after /\ after ⊆ {[d]} ∪ before.
Proof. intros [-> | ->]; split; set_solver. Qed.

(** the text of the download tool on a failure of the implementation *)
Lemma download_tool_on_failure (work_item_id : Z) (attachment_id output_path : string)
    (w w' : World) (msg : string) :
  get_work_item_client env = inr wit_client ->
  _download_attachment_impl work_item_id attachment_id output_path wit_client w
  = (inl (AzureDevOpsClientError msg), w') ->
  download_work_item_attachment env work_item_id attachment_id output_path w
  = ("Error: " +:+ msg, w').
Proof.
  intros Hclient Himpl.
  unfold download_work_item_attachment, download_tool_body, bind, lift.
  now rewrite Hclient, Himpl.
Qed.

(** X1. When the work item has relations but none is an attachment
    carrying the id, the download tool answers "Attachment <id> not found
    in work item <id>"; the content is never requested and the file
    system stays as it was. *)
Theorem download_of_unknown_attachment
    (work_item_id : Z) (attachment_id output_path : string) (w : World)
    (wi : WorkItem) (rels : list WorkItemRelation) :
  get_work_item_client env = inr wit_client ->
  get_work_item wit_client work_item_id (Some "relations") = inr (Some wi) ->
  relations wi = Some rels ->
  rels <> [] ->
  Forall (fun r => is_attachment attachment_id r = false) rels ->
  download_work_item_attachment env work_item_id attachment_id output_path w
  = ("Error: Error downloading attachment " +:+ attachment_id
     +:+ " from work item " +:+ pretty work_item_id
     +:+ ": Error getting attachment information: Attachment " +:+ attachment_id
     +:+ " not found in work item " +:+ pretty work_item_id,
     {| fs := fs w; sdk_trace := sdk_trace w ++ [lookup_call work_item_id] |}).
Proof.
  intros Hclient Hget Hrels Hne Hnone.
  apply download_tool_on_failure; [exact Hclient|].
  rewrite download_eq. cbv zeta.
  rewrite get_attachment_info_run, Hget.
  destruct (lacks_relations_false wi rels Hrels Hne) as [-> ->].
  rewrite scan_relations_find, (find_no_match _ rels Hnone). reflexivity.
Qed.

(** X2. When the attachment is found but [get_attachment_content] raises,
    the download tool answers with the message of the SDK behind the
    download prefix; nothing has been created or written, not even the
    downloads directory. *)
Theorem download_when_content_call_fails
    (work_item_id : Z) (attachment_id output_path : string) (w : World)
    (info : AttachmentInfo) (e : exn) :
  get_work_item_client env = inr wit_client ->
  (_get_attachment_info_from_work_item work_item_id attachment_id wit_client w).1
  = inr info ->
  get_attachment_content wit_client attachment_id = inl e ->
  download_work_item_attachment env work_item_id attachment_id output_path w
  = ("Error: Error downloading attachment " +:+ attachment_id
     +:+ " from work item " +:+ pretty work_item_id +:+ ": " +:+ str_exn e,
     {| fs := fs w;
        sdk_trace := sdk_trace w ++ [lookup_call work_item_id;
                                     CallGetAttachmentContent attachment_id] |}).
Proof.
  intros Hclient Hinfo Hcontent.
  apply download_tool_on_failure; [exact Hclient|].
  rewrite download_eq. cbv zeta. rewrite Hinfo, Hcontent.
  unfold after_call. cbn [fs sdk_trace]. now rewrite <- app_assoc.
Qed.

(** X3. When the content stream breaks after some chunks, the download
    fails with the message of the break, and the file at the save path is
    left behind holding the chunks received so far. *)
Theorem download_interrupted_leaves_partial_file
    (work_item_id : Z) (attachment_id output_path : string) (w : World)
    (info : AttachmentInfo) (chunks : list bytes) (e : exn)
    (made opened : FileSystem) :
  (_get_attachment_info_from_work_item work_item_id attachment_id wit_client w).1
  = inr info ->
  get_attachment_content wit_client attachment_id = inr (chunks, Some e) ->
  let final_path := download_final_path output_path in
  Fs.makedirs (download_directory (fs_cwd (fs w)) output_path) (fs w) = inr made ->
  Fs.open_wb final_path made = inr opened ->
  exists w',
    _download_attachment_impl work_item_id attachment_id output_path wit_client w
    = (inl (download_error work_item_id attachment_id (str_exn e)), w')
    /\ fs_files (fs w') !! final_path = Some (concat chunks).
Proof.
  intros Hinfo Hcontent final_path Hmade Hopened.
  rewrite download_eq. cbv zeta. fold final_path.
  rewrite Hinfo, Hcontent, Hmade, Hopened. cbn [fst snd].
  eexists. split; [reflexivity|].
  unfold with_fs. cbn [fs]. rewrite file_appended_lookup.
  destruct (open_wb_frame _ _ _ Hopened) as (-> & _).
  now rewrite lookup_insert_eq.
Qed.

(** X4. Whatever its outcome, a download changes no file other than the
    one at its save path, creates no directory other than the one it
    makes sure of, and removes none. *)
Theorem download_touches_only_its_save_path
    (work_item_id : Z) (attachment_id output_path : string) (w : World) :
  let w' := (_download_attachment_impl
               work_item_id attachment_id output_path wit_client w).2 in
  (forall p, p <> download_final_path output_path ->
             fs_files (fs w') !! p = fs_files (fs w) !! p)
  /\ fs_dirs (fs w) ⊆ fs_dirs (fs w')
  /\ fs_dirs (fs w') ⊆ {[download_directory (fs_cwd (fs w)) output_path]} ∪ fs_dirs (fs w)
  /\ fs_denied (fs w') = fs_denied (fs w)
  /\ fs_cwd (fs w') = fs_cwd (fs w).
Proof.
  rewrite download_eq. cbv zeta.
  assert (fs_dirs (fs w) ⊆ fs_dirs (fs w)
          /\ fs_dirs (fs w)
              ⊆ {[download_directory (fs_cwd (fs w)) output_path]} ∪ fs_dirs (fs w))
    as Hsame by (apply dirs_grow; now left).
  destruct (_get_attachment_info_from_work_item _ _ _ w).1 as [e|info];
    [cbn; tauto|].
  destruct (get_attachment_content wit_client attachment_id) as [e|gen];
    [cbn; tauto|].
  destruct (Fs.makedirs _ (fs w)) as [e|made] eqn:Hmade; [cbn; tauto|].
  destruct (makedirs_frame _ _ _ Hmade) as (Hfiles & Hdenied & Hcwd & Hdirs).
  apply dirs_grow in Hdirs.
  destruct (Fs.open_wb _ made) as [e|opened] eqn:Hopened.
  - cbn. rewrite Hfiles, Hdenied, Hcwd. tauto.
  - destruct (open_wb_frame _ _ _ Hopened) as (Hfiles' & Hdirs' & Hdenied' & Hcwd' & _).
    cbn [snd with_fs fs]. split.
    + intros p Hp. rewrite file_appended_other by exact Hp.
      rewrite Hfiles', lookup_insert_ne by congruence. now rewrite Hfiles.
    + unfold file_appended. cbn [fs_dirs fs_denied fs_cwd].
      rewrite Hdirs', Hdenied', Hcwd', Hdenied, Hcwd. tauto.
Qed.

Lemma basename_of_inv (o : pyobj) (filename : string) :
  basename_of o = inr filename ->
  exists s, o = PyStr s /\ filename = os_path_basename s.
Proof. destruct o; try discriminate. intros [= <-]. eauto. Qed.

(** X5. The file name a successful download reports is the base name of
    the [name] attribute of the first matching relation: it holds no
    slash and does not depend on [output_path]; the content type it
    reports is the relation's [contentType] attribute, or
    [application/octet-stream] when there is none. *)
Theorem download_reports_stored_name
    (work_item_id : Z) (attachment_id output_path : string) (w w' : World)
    (wi : WorkItem) (rels : list WorkItemRelation) (result : DownloadResult) :
  get_work_item wit_client work_item_id (Some "relations") = inr (Some wi) ->
  relations wi = Some rels ->
  _download_attachment_impl work_item_id attachment_id output_path wit_client w
  = (inr result, w') ->
  exists relation,
    find (is_attachment attachment_id) rels = Some relation
    /\ dl_filename result
       = os_path_basename (str_obj (default (PyStr "") (attributes relation !! "name")))
    /\ Str.contains "/" (dl_filename result) = false
    /\ dl_content_type result
       = default (PyStr "application/octet-stream")
                 (attributes relation !! "contentType").
Proof.
  intros Hget Hrels Hrun. rewrite download_eq in Hrun. cbv zeta in Hrun.
  rewrite get_attachment_info_run, Hget in Hrun. cbn [fst] in Hrun.
  destruct rels as [|r0 rest].
  { unfold lacks_relations in Hrun. rewrite Hrels in Hrun. discriminate. }
  destruct (lacks_relations_false wi (r0 :: rest) Hrels) as [Hlack Hof];
    [discriminate|].
  rewrite Hlack, Hof, scan_relations_find in Hrun.
  destruct (find (is_attachment attachment_id) (r0 :: rest)) as [relation|];
    [|discriminate].
  unfold attachment_info_of in Hrun.
  destruct (basename_of (default (PyStr "") (attributes relation !! "name")))
    as [e|filename] eqn:Hbase; [discriminate|].
  destruct (basename_of_inv _ _ Hbase) as (s & Hs & ->).
  destruct (get_attachment_content wit_client attachment_id) as [e|gen];
    [discriminate|].
  destruct (Fs.makedirs _ (fs w)) as [e|made]; [discriminate|].
  destruct (Fs.open_wb _ made) as [e|opened]; [discriminate|].
  destruct (snd gen); [discriminate|].
  injection Hrun as <- _. exists relation. cbn. rewrite Hs. cbn.
  repeat split. apply PathFacts.basename_without_slash.
Qed.

(** X6. With an empty attachment id every [AttachedFile] relation
    matches, so the lookup returns the first attachment of the work
    item. *)
Theorem empty_attachment_id_selects_first_attachment
    (work_item_id : Z) (w : World) (wi : WorkItem)
    (pre post : list WorkItemRelation) (relation : WorkItemRelation) :
  get_work_item wit_client work_item_id (Some "relations") = inr (Some wi) ->
  relations wi = Some (pre ++ relation :: post) ->
  Forall (fun r => rel r <> "AttachedFile") pre ->
  rel relation = "AttachedFile" ->
  name_is_str relation = true ->
  (_get_attachment_info_from_work_item work_item_id "" wit_client w).1
  = inr {| info_name :=
             os_path_basename
               (str_obj (default (PyStr "") (attributes relation !! "name")));
           info_url := url relation;
           info_attributes := attributes relation |}.
Proof.
  intros Hget Hrels Hpre Hrel Hname.
  rewrite get_attachment_info_run, Hget. cbn [fst].
  destruct (lacks_relations_false wi _ Hrels) as [-> ->];
    [now destruct pre|].
  rewrite scan_relations_find, (find_first _ pre relation post).
  - now rewrite (attachment_info_of_text relation Hname).
  - eapply Forall_impl; [exact Hpre|]. intros r Hr. unfold is_attachment.
    apply andb_false_iff. left. now apply String.eqb_neq.
  - unfold is_attachment. rewrite Hrel. cbn.
    now destruct (url relation).
Qed.

End DownloadExtras.

(** ** More on the upload and the attach step *)

Section UploadExtras.

Variable env : Environment.
Variable wit_client : WorkItemTrackingClient.

(** X7. The locator only reads: it leaves the world as it is, and a path
    it returns is one of the searched locations, is not empty and exists. *)
Theorem locator_returns_an_existing_path (file_path : string) (w : World) :
  (locate_container_path file_path w).2 = w
  /\ (forall container_path,
        (locate_container_path file_path w).1 = inr container_path ->
        In container_path (searched_locations file_path)
        /\ Fs.path_exists (fs w) container_path = true
        /\ container_path <> "").
Proof.
  rewrite locate_run. split; [reflexivity|].
  intros container_path. cbn [fst].
  destruct (find (Fs.path_exists (fs w)) (searched_locations file_path))
    as [loc|] eqn:Hfind; [|discriminate].
  intros [= <-]. apply find_some in Hfind as [Hin Hex].
  repeat split; try assumption.
  intros ->. discriminate.
Qed.

(** X8. A name searched in the three directories is taken from
    [/downloads] before [/uploads], and from [/uploads] before [/tmp]:
    for a Windows-style path the name is its file name, for a relative
    path it is the path. *)
Theorem locator_prefers_downloads_then_uploads
    (file_path name : string) (w : World) :
  (is_windows_path file_path = true /\ name = windows_filename file_path)
  \/ (is_windows_path file_path = false /\ Str.startswith file_path "/" = false
      /\ name = file_path) ->
  let there dir := Fs.path_exists (fs w) (os_path_join dir name) in
  (there "/downloads" = true ->
   locate_container_path file_path w = (inr (os_path_join "/downloads" name), w))
  /\ (there "/downloads" = false -> there "/uploads" = true ->
      locate_container_path file_path w = (inr (os_path_join "/uploads" name), w))
  /\ (there "/downloads" = false -> there "/uploads" = false ->
      there "/tmp" = true ->
      locate_container_path file_path w = (inr (os_path_join "/tmp" name), w)).
Proof.
  intros Hform there. subst there. rewrite locate_run.
  assert (exists rest, searched_locations file_path = common_locations name ++ rest)
    as [rest ->].
  { unfold searched_locations.
    destruct Hform as [[-> ->] | (-> & -> & ->)].
    - exists []. now rewrite app_nil_r.
    - now eexists. }
  unfold common_locations. cbn [app find].
  repeat split.
  - now intros ->.
  - now intros -> ->.
  - now intros -> -> ->.
Qed.




(** X12. A file name given by the caller is the one sent to the SDK and
    reported, whatever the path; the content type is guessed from that
    name and is [application/octet-stream] when the guess gives nothing,
    so it is never empty. *)
Theorem upload_uses_given_file_name
    (file_path given : string) (comment : option string) (w w' : World)
    (result : UploadResult) :
  given <> "" ->
  _upload_attachment_impl env file_path (Some given) comment wit_client w
  = (inr result, w') ->
  up_name result = given
  /\ (exists calls,
        sdk_trace w' = sdk_trace w ++ calls /\ upload_calls_of given calls)
  /\ up_content_type result
     = match guess_type env given with
       | Some "" | None => "application/octet-stream"
       | Some guessed => guessed
       end
  /\ up_content_type result <> "".
Proof.
  intros Hgiven Hrun.
  destruct (upload_success_inv env wit_client _ _ _ _ _ _ Hrun)
    as (cp & calls & _ & _ & Hname & _ & _ & Htrace & Hcalls).
  assert (effective_file_name file_path (Some given) = given) as Heff.
  { unfold effective_file_name, Str.truthy.
    destruct (String.eqb_spec given ""); [contradiction | reflexivity]. }
  rewrite Heff in *.
  split; [exact Hname|]. split; [eauto|].
  revert Hrun. rewrite (upload_eq env wit_client). cbv zeta. rewrite Heff.
  destruct (find _ _) as [cp'|]; [|discriminate].
  destruct (Fs.open_rb cp' (fs w)) as [e|content]; [discriminate|].
  destruct (create_attachment wit_client (FileObject cp' content) _ _) as [e1|a].
  - destruct (create_attachment wit_client (BytesIO content) _ _) as [e2|a];
      [discriminate|].
    intros [= <- _]. cbn. unfold content_type_of.
    destruct (guess_type env given) as [[|c t]|]; cbn; split;
      (reflexivity || discriminate).
  - intros [= <- _]. cbn. unfold content_type_of.
    destruct (guess_type env given) as [[|c t]|]; cbn; split;
      (reflexivity || discriminate).
Qed.

(** X13. When the work item cannot be read, the attach step fails with
    "Work item <id> not found" or the message of the SDK, and it never
    calls [update_work_item]. *)
Theorem attach_without_work_item_never_updates
    (work_item_id : Z) (attachment_id attachment_name : string)
    (comment : option string) (w : World) :
  (forall wi, get_work_item wit_client work_item_id None <> inr (Some wi)) ->
  exists msg,
    _attach_file_to_work_item_impl
      work_item_id attachment_id attachment_name comment wit_client w
    = (inl (attach_error work_item_id msg),
       {| fs := fs w;
          sdk_trace := sdk_trace w ++ [CallGetWorkItem work_item_id None] |})
    /\ (get_work_item wit_client work_item_id None = inr None ->
        msg = "Work item " +:+ pretty work_item_id +:+ " not found")
    /\ (forall e, get_work_item wit_client work_item_id None = inl e ->
        msg = str_exn e).
Proof.
  intros Hnone. rewrite (attach_eq wit_client). cbv zeta.
  destruct (get_work_item wit_client work_item_id None) as [e|[wi|]].
  - eexists. split; [reflexivity|]. split; [discriminate|]. now intros e' [= <-].
  - now destruct (Hnone wi).
  - eexists. split; [reflexivity|]. split; [reflexivity | discriminate].
Qed.

End UploadExtras.

(** ** More on the tools and on how they compose *)

Section ToolExtras.

Variable env : Environment.
Variable wit_client : WorkItemTrackingClient.




(** X15. When the upload step succeeds and the attach step fails, the
    tool returns the error of the attach step; the attachment has been
    created all the same, and no call follows that would remove it. *)
Theorem failed_attach_leaves_uploaded_attachment
    (work_item_id : Z) (file_path : string) (file_name comment : option string)
    (w w1 w2 : World) (upload_result : UploadResult) (e : exn) :
  get_work_item_client env = inr wit_client ->
  _upload_attachment_impl env file_path file_name comment wit_client w
  = (inr upload_result, w1) ->
  _attach_file_to_work_item_impl work_item_id (up_url upload_result)
    (up_name upload_result) comment wit_client w1 = (inl e, w2) ->
  let document :=
    patch_document_for (up_url upload_result) (up_name upload_result) comment in
  upload_attachment_to_work_item env work_item_id file_path file_name comment w
  = ("Error: " +:+ str_exn e, w2)
  /\ Str.startswith (str_exn e)
       ("Error attaching file to work item " +:+ pretty work_item_id +:+ ": ") = true
  /\ exists created attach_calls,
       sdk_trace w2 = sdk_trace w ++ created ++ attach_calls
       /\ upload_calls_of (up_name upload_result) created
       /\ (attach_calls = [CallGetWorkItem work_item_id None]
           \/ attach_calls = [CallGetWorkItem work_item_id None;
                              CallUpdateWorkItem document work_item_id false]).
Proof.
  intros Hclient Hup Hat document.
  destruct (upload_success_inv env wit_client _ _ _ _ _ _ Hup)
    as (cp & created & _ & _ & Hname & _ & _ & Htrace & Hcreated).
  rewrite <- Hname in Hcreated.
  assert (exists msg, e = attach_error work_item_id msg
                      /\ (sdk_trace w2 = sdk_trace w1 ++ [CallGetWorkItem work_item_id None]
                          \/ sdk_trace w2
                             = sdk_trace w1 ++ [CallGetWorkItem work_item_id None;
                                                CallUpdateWorkItem document work_item_id false]))
    as (msg & -> & Hcalls).
  { revert Hat. rewrite (attach_eq wit_client). cbv zeta. fold document.
    destruct (get_work_item wit_client work_item_id None) as [e0|[wi|]].
    - intros [= <- <-]. eexists. split; [reflexivity|]. now left.
    - destruct (update_work_item wit_client document work_item_id false)
        as [e0|[u|]]; intros [= <- <-]; try discriminate;
        (eexists; split; [reflexivity|]; right; cbn; now rewrite <- app_assoc).
    - intros [= <- <-]. eexists. split; [reflexivity|]. now left. }
  split; [|split].
  - unfold upload_attachment_to_work_item, upload_tool_body.
    unfold bind at 1, lift. rewrite Hclient. unfold bind at 1. rewrite Hup.
    unfold bind at 1. now rewrite Hat.
  - cbn [str_exn attach_error]. unfold Str.startswith.
    rewrite <- !StrFacts.app_assoc. apply StrFacts.prefix_app.
  - exists created.
    destruct Hcalls as [H|H]; rewrite H, Htrace, <- app_assoc; eauto.
Qed.


End ToolExtras.

(** ** A download followed by an upload *)

Section RoundTrip.

Variable env : Environment.
Variable wit_client : WorkItemTrackingClient.

Lemma download_filename_without_backslash (output_path : string) :
  Str.contains (String backslash "") (download_filename output_path) = false.
Proof.
  unfold download_filename. destruct (is_windows_path output_path) eqn:Hwin.
  - apply windows_filename_without_backslash.
  - unfold is_windows_path in Hwin. apply orb_false_iff in Hwin as [Hback _].
    destruct (StrFacts.last_split_suffix slash output_path) as [pre Hpre].
    rewrite Hpre, StrFacts.contains_char_app in Hback.
    now apply orb_false_iff in Hback.
Qed.

Lemma first_split_cons (c a : ascii) (s : string) :
  Str.first (Str.split c (String a s))
  = if Ascii.eqb a c then "" else String a (Str.first (Str.split c s)).
Proof.
  unfold Str.first. simpl. destruct (Ascii.eqb a c); [reflexivity|].
  destruct (Str.split c s) eqn:E; [now apply StrFacts.split_nonempty in E|].
  reflexivity.
Qed.

(** a path under [/downloads] whose name holds no backslash is not taken
    for a Windows path *)
Lemma saved_path_is_posix (name : string) :
  Str.contains (String backslash "") name = false ->
  is_windows_path ("/downloads/" +:+ name) = false.
Proof.
  intros Hback. unfold is_windows_path.
  rewrite StrFacts.contains_char_app, Hback.
  change ("/downloads/" +:+ name) with (String "/" (String "d" ("ownloads/" +:+ name))).
  unfold colon. rewrite !first_split_cons. cbn [Ascii.eqb Bool.eqb String.length].
  now rewrite andb_false_r.
Qed.

(** X17. What a successful download has saved can be uploaded by its save
    path or by its bare file name: the locator resolves either to the
    saved file, the stream handed to the SDK holds exactly the bytes that
    were downloaded, and the upload reports the size the download
    reported. *)
Theorem download_then_upload_round_trip
    (work_item_id : Z) (attachment_id output_path : string) (w w1 : World)
    (downloaded : DownloadResult) :
  _download_attachment_impl work_item_id attachment_id output_path wit_client w
  = (inr downloaded, w1) ->
  let saved := dl_saved_to downloaded in
  exists data,
    fs_files (fs w1) !! saved = Some data
    /\ dl_size downloaded = Z.of_nat (length data)
    /\ forall file_path,
         file_path = saved \/ file_path = download_filename output_path ->
         locate_container_path file_path w1 = (inr saved, w1)
         /\ forall (file_name comment : option string) (client : WorkItemTrackingClient)
                   (attachment : AttachmentReference),
              let name := effective_file_name file_path file_name in
              create_attachment client (FileObject saved data) name "simple"
              = inr attachment ->
              _upload_attachment_impl env file_path file_name comment client w1
              = (inr (upload_result_of env attachment file_path name saved
                        (dl_size downloaded) comment),
                 after_call (CallCreateAttachment (FileObject saved data) name "simple")
                   w1).
Proof.
  rewrite download_eq. cbv zeta.
  destruct (_get_attachment_info_from_work_item _ _ _ w).1 as [e|info];
    [discriminate|].
  destruct (get_attachment_content wit_client attachment_id) as [e|[chunks ending]];
    [discriminate|].
  destruct (Fs.makedirs _ (fs w)) as [e|made]; [discriminate|].
  destruct (Fs.open_wb _ made) as [e|opened] eqn:Hopened; [discriminate|].
  cbn [fst snd]. destruct ending as [e|]; [discriminate|].
  intros [= <- <-]. cbn [dl_saved_to download_result_of dl_size].
  set (final_path := download_final_path output_path).
  set (data := concat chunks).
  destruct (open_wb_frame _ _ _ Hopened) as (Hfiles & _ & Hdenied & _ & Hallowed).
  assert (fs_files (file_appended final_path data opened) !! final_path = Some data)
    as Hfile.
  { rewrite file_appended_lookup, Hfiles, lookup_insert_eq. reflexivity. }
  set (w1 := with_fs (file_appended final_path data opened) _).
  assert (fs w1 = file_appended final_path data opened) as Hfs by reflexivity.
  exists data. rewrite Hfs. split; [exact Hfile|]. split; [reflexivity|].
  pose proof (PathFacts.download_filename_without_slash output_path) as Hslash.
  pose proof (download_filename_without_backslash output_path) as Hback.
  pose proof (PathFacts.download_final_path_eq output_path) as Hpath.
  fold final_path in Hpath.
  assert (Fs.path_exists (fs w1) final_path = true) as Hexists.
  { unfold Fs.path_exists, Fs.is_file. rewrite Hfs, Hfile, Hpath.
    reflexivity. }
  assert (forall file_path,
             file_path = final_path \/ file_path = download_filename output_path ->
             find (Fs.path_exists (fs w1)) (searched_locations file_path)
             = Some final_path) as Hfind.
  { intros file_path [-> | ->].
    - assert (is_windows_path final_path = false) as Hposix
        by (rewrite Hpath; apply (saved_path_is_posix _ Hback)).
      assert (Str.startswith final_path "/" = true) as Habs
        by (rewrite Hpath; reflexivity).
      unfold searched_locations. rewrite Hposix, Habs.
      destruct (Str.startswith_any _ _); cbn [find]; now rewrite Hexists.
    - assert (exists rest,
                 searched_locations (download_filename output_path)
                 = final_path :: rest) as [rest ->].
      { unfold searched_locations.
        destruct (is_windows_path (download_filename output_path)).
        - rewrite (PathFacts.windows_filename_of_plain _ Hslash Hback).
          now eexists.
        - rewrite (PathFacts.startswith_slash_false _ Hslash). now eexists. }
      cbn [find]. now rewrite Hexists. }
  intros file_path Hform. specialize (Hfind file_path Hform).
  split; [now rewrite locate_run, Hfind|].
  intros file_name comment client attachment Hcreate.
  rewrite (upload_eq env client). cbv zeta. rewrite Hfind.
  assert (Fs.open_rb final_path (fs w1) = inr data) as ->.
  { unfold Fs.open_rb. rewrite Hfs, Hfile.
    assert (Fs.is_denied (file_appended final_path data opened) final_path = false)
      as -> by (unfold Fs.is_denied in *; cbn [file_appended fs_denied];
                now rewrite Hdenied).
    reflexivity. }
  now rewrite Hcreate.
Qed.

End RoundTrip.

(** ** The further properties on concrete worlds *)

Module MoreWitnesses.
Import Examples MoreExamples.

(** X1 on work item 7, which has no attachment [zzz-999]. *)
Lemma download_of_unknown_attachment_witness :
  (download_work_item_attachment env 7 "zzz-999" "out.bin" (world_of fs_empty)).1
  = "Error: Error downloading attachment zzz-999 from work item 7: Error getting attachment information: Attachment zzz-999 not found in work item 7".
Proof.
  rewrite (download_of_unknown_attachment env client 7 "zzz-999" "out.bin"
             (world_of fs_empty) work_item_7
             [relation_link; relation_report; relation_copy]).
  - vm_compute. reflexivity.
  - reflexivity.
  - reflexivity.
  - reflexivity.
  - discriminate.
  - repeat constructor.
Defined.

(** X2 with a client that is refused the content. *)
Lemma download_when_content_call_fails_witness :
  download_work_item_attachment (env_of client_no_content) 7 "abc-123" "out.bin"
    (world_of fs_empty)
  = ("Error: Error downloading attachment abc-123 from work item 7: 403 Forbidden",
     {| fs := fs_empty;
        sdk_trace := [lookup_call 7; CallGetAttachmentContent "abc-123"] |}).
Proof.
  eassert ((_get_attachment_info_from_work_item 7 "abc-123" client_no_content
              (world_of fs_empty)).1 = inr _) as Hinfo
    by (vm_compute; reflexivity).
  rewrite (download_when_content_call_fails (env_of client_no_content)
             client_no_content 7 "abc-123" "out.bin" (world_of fs_empty) _
             (OtherException "403 Forbidden") eq_refl Hinfo eq_refl).
  vm_compute. reflexivity.
Defined.

(** X3 with a stream that breaks after three bytes. *)
Lemma download_interrupted_leaves_partial_file_witness :
  exists w',
    _download_attachment_impl 7 "abc-123" "report.txt" client_broken_stream
      (world_of fs_old_report)
    = (inl (download_error 7 "abc-123" "connection reset"), w')
    /\ fs_files (fs w') !! "/downloads/report.txt"
       = Some [Byte.x25; Byte.x50; Byte.x44].
Proof.
  eapply (download_interrupted_leaves_partial_file client_broken_stream 7 "abc-123"
            "report.txt" (world_of fs_old_report) _
            [[Byte.x25; Byte.x50]; [Byte.x44]] (OtherException "connection reset")).
  - vm_compute. reflexivity.
  - reflexivity.
  - vm_compute. reflexivity.
  - vm_compute. reflexivity.
Defined.

(** X4: the file beside the downloaded one keeps its content. *)
Lemma download_touches_only_its_save_path_witness :
  fs_files (fs (_download_attachment_impl 7 "abc-123" "report.txt" client
                  (world_of fs_old_report)).2) !! "/downloads/other.txt"
  = Some [Byte.x78].
Proof.
  rewrite (proj1 (download_touches_only_its_save_path client 7 "abc-123"
                    "report.txt" (world_of fs_old_report))).
  - vm_compute. reflexivity.
  - intros H. vm_compute in H. discriminate.
Defined.

(** X5: saved as [x.bin], reported as [report.pdf]. *)
Lemma download_reports_stored_name_witness :
  exists result w',
    _download_attachment_impl 7 "abc-123" "x.bin" client (world_of fs_empty)
    = (inr result, w')
    /\ dl_saved_to result = "/downloads/x.bin"
    /\ dl_filename result = "report.pdf"
    /\ dl_content_type result = PyStr "application/octet-stream".
Proof.
  eassert (_download_attachment_impl 7 "abc-123" "x.bin" client (world_of fs_empty)
           = (inr _, _)) as Hrun by (vm_compute; reflexivity).
  destruct (download_reports_stored_name client 7 "abc-123" "x.bin" _ _
              work_item_7 _ _ eq_refl eq_refl Hrun)
    as (relation & Hfind & Hname & _ & Htype).
  vm_compute in Hfind. injection Hfind as <-.
  eexists. eexists. split; [exact Hrun|]. split; [reflexivity|].
  split; [exact Hname | exact Htype].
Defined.

(** X6 on work item 7: the first attachment is the report. *)
Lemma empty_attachment_id_selects_first_attachment_witness :
  exists info,
    (_get_attachment_info_from_work_item 7 "" client (world_of fs_empty)).1 = inr info
    /\ info_url info = url relation_report.
Proof.
  eexists. split.
  - apply (empty_attachment_id_selects_first_attachment client 7 (world_of fs_empty)
             work_item_7 [relation_link] [relation_copy] relation_report).
    + reflexivity.
    + reflexivity.
    + repeat constructor. discriminate.
    + reflexivity.
    + reflexivity.
  - reflexivity.
Defined.

(** X7 on [notes.txt] in [/uploads]. *)
Lemma locator_returns_an_existing_path_witness :
  Fs.path_exists fs_uploads "/uploads/notes.txt" = true.
Proof.
  apply (proj2 (locator_returns_an_existing_path "notes.txt" (world_of fs_uploads))
           "/uploads/notes.txt").
  vm_compute. reflexivity.
Defined.

(** X8 on [notes.txt] present in all three directories. *)
Lemma locator_prefers_downloads_then_uploads_witness :
  locate_container_path "notes.txt" (world_of fs_everywhere)
  = (inr "/downloads/notes.txt", world_of fs_everywhere).
Proof.
  apply (proj1 (locator_prefers_downloads_then_uploads "notes.txt" "notes.txt"
                  (world_of fs_everywhere)
                  (or_intror (conj eq_refl (conj eq_refl eq_refl))))).
  vm_compute. reflexivity.
Defined.



(** X12 with the name [minutes.pdf] given for [notes.txt]. *)
Lemma upload_uses_given_file_name_witness :
  exists result w',
    _upload_attachment_impl (env_of client) "notes.txt" (Some "minutes.pdf") None
      client (world_of fs_uploads) = (inr result, w')
    /\ up_name result = "minutes.pdf"
    /\ up_content_type result = "application/pdf".
Proof.
  eassert (_upload_attachment_impl (env_of client) "notes.txt" (Some "minutes.pdf")
             None client (world_of fs_uploads) = (inr _, _)) as Hrun
    by (vm_compute; reflexivity).
  destruct (upload_uses_given_file_name (env_of client) client "notes.txt"
              "minutes.pdf" None _ _ _ ltac:(discriminate) Hrun)
    as (Hname & _ & Htype & _).
  eexists. eexists. split; [exact Hrun|]. split; [exact Hname | exact Htype].
Defined.

(** X13 with a client for which work item 7 does not exist. *)
Lemma attach_without_work_item_never_updates_witness :
  _attach_file_to_work_item_impl 7 (att_url uploaded) "notes.txt" None
    client_no_item (world_of fs_uploads)
  = (inl (attach_error 7 "Work item 7 not found"),
     {| fs := fs_uploads; sdk_trace := [CallGetWorkItem 7 None] |}).
Proof.
  destruct (attach_without_work_item_never_updates client_no_item 7
              (att_url uploaded) "notes.txt" None (world_of fs_uploads))
    as (msg & Hrun & Hmsg & _).
  - intros wi H. vm_compute in H. discriminate.
  - rewrite Hrun, (Hmsg eq_refl). vm_compute. reflexivity.
Defined.


(** X15 with a client whose update is refused. *)
Lemma failed_attach_leaves_uploaded_attachment_witness :
  exists w',
    upload_attachment_to_work_item (env_of client_no_update) 7 "notes.txt" None None
      (world_of fs_uploads)
    = ("Error: Error attaching file to work item 7: TF401320: Rule Error", w')
    /\ existsb is_create_call (sdk_trace w') = true.
Proof.
  eassert (_upload_attachment_impl (env_of client_no_update) "notes.txt" None None
             client_no_update (world_of fs_uploads) = (inr _, _)) as Hup
    by (vm_compute; reflexivity).
  eassert (_attach_file_to_work_item_impl 7 _ _ None client_no_update _
           = (inl _, _)) as Hat; [|
  destruct (failed_attach_leaves_uploaded_attachment (env_of client_no_update)
              client_no_update 7 _ _ _ _ _ _ _ _ eq_refl Hup Hat) as (Htool & _)].
  - vm_compute. reflexivity.
  - eexists. split; [rewrite Htool; vm_compute; reflexivity|].
    vm_compute. reflexivity.
Defined.

(** X17: the report downloaded from work item 7 is uploaded by its bare
    name, five bytes both ways. *)
Lemma download_then_upload_round_trip_witness :
  exists downloaded w1 uploaded_result w2,
    _download_attachment_impl 7 "abc-123" windows_path client (world_of fs_empty)
    = (inr downloaded, w1)
    /\ _upload_attachment_impl env "report.txt" None None client w1
       = (inr uploaded_result, w2)
    /\ up_container_path uploaded_result = "/downloads/report.txt"
    /\ up_size uploaded_result = 5.
Proof.
  eassert (_download_attachment_impl 7 "abc-123" windows_path client
             (world_of fs_empty) = (inr _, _)) as Hdl
    by (vm_compute; reflexivity).
  destruct (download_then_upload_round_trip env client _ _ _ _ _ _ Hdl)
    as (data & Hfile & Hsize & Hboth).
  destruct (Hboth "report.txt" (or_intror eq_refl)) as [_ Hupload].
  specialize (Hupload None None client uploaded eq_refl).
  eexists. eexists. eexists. eexists.
  split; [exact Hdl|]. split; [exact Hupload|]. split; reflexivity.
Defined.

End MoreWitnesses.
